(** * wufang-bot: a shallow embedding of [main.py]

    The bot answers a LINE webhook.  A text message that contains the
    keyword triggers a run: an acknowledgement is replied, six Bitfinex
    funding rates are fetched and laid out as a table with one icon per
    row, the picture is saved, uploaded to Cloudinary and pushed to the
    sender.

    The embedding keeps the control flow of [main.py]: Python exceptions
    are an error monad, the calls to collaborators (HTTP, Pillow,
    matplotlib, Cloudinary, the LINE SDK) are answered by a [World] and
    recorded in a trace, and the file written by [savefig] lives in an
    explicit file store.  Python floats are the kernel's binary64
    floats. *)

From Stdlib Require Import ZArith NArith String Ascii List Bool Lia.
From Stdlib Require Import Numbers.DecimalString.
From Stdlib Require Import DecimalFacts DecimalPos DecimalN.
From Stdlib Require Import Floats.PrimFloat Floats.SpecFloat Floats.FloatOps.
From stdpp Require Import base option list strings gmap.

Set Warnings "-inexact-float,-register-all".

Local Open Scope string_scope.
Local Open Scope list_scope.

(** ** Python values *)

(** A Python [str] whose characters matter one by one (the inbound chat
    text, strings inside a JSON payload) is its sequence of Unicode code
    points.  Texts that are only concatenated and shown are Rocq strings
    holding the UTF-8 bytes. *)
Definition pystr := list N.

(** An exception object: its class and what [str(e)] gives.  The model
    covers the classes derived from [Exception], which is what the
    collaborators raise and what [except Exception] catches. *)
Record exn := mk_exn { exn_class : string; exn_str : string }.

Inductive result (A : Type) : Type :=
| Ok (a : A)
| Raise (e : exn).
Arguments Ok {A} a.
Arguments Raise {A} e.

Definition IndexError (msg : string) := mk_exn "IndexError" msg.
Definition KeyError (key : string) := mk_exn "KeyError" ("'" +:+ key +:+ "'").
Definition TypeError (msg : string) := mk_exn "TypeError" msg.
Definition ValueError (msg : string) := mk_exn "ValueError" msg.
Definition OverflowError (msg : string) := mk_exn "OverflowError" msg.

(** What [response.json()] can return. *)
Inductive json : Type :=
| JNull
| JBool (b : bool)
| JInt (z : Z)
| JFloat (f : float)
| JStr (s : pystr)
| JList (l : list json)
| JDict (d : list (pystr * json)).

(** [v[i]] for a literal index [i >= 0].  The keys of a decoded JSON object
    are strings, so an integer key is never found. *)
Definition py_getitem (v : json) (i : nat) : result json :=
  match v with
  | JList l =>
      match nth_error l i with
      | Some x => Ok x
      | None => Raise (IndexError "list index out of range")
      end
  | JStr s =>
      match nth_error s i with
      | Some c => Ok (JStr [c])
      | None => Raise (IndexError "string index out of range")
      end
  | JDict _ => Raise (mk_exn "KeyError" (NilZero.string_of_uint (Nat.to_uint i)))
  | JNull => Raise (TypeError "'NoneType' object is not subscriptable")
  | JBool _ => Raise (TypeError "'bool' object is not subscriptable")
  | JInt _ => Raise (TypeError "'int' object is not subscriptable")
  | JFloat _ => Raise (TypeError "'float' object is not subscriptable")
  end.

(** ** Floats *)

Definition prec : Z := 53.
Definition emax : Z := 1024.

(** The binary64 value nearest to an integer, ties to even. *)
Definition nearest_float (z : Z) : float :=
  SF2Prim (binary_normalize prec emax z 0 false).

(** [float(n)] for a Python int; an int beyond the range raises
    [OverflowError]. *)
Definition float_of_int (z : Z) : result float :=
  let f := nearest_float z in
  if PrimFloat.is_infinity f
  then Raise (OverflowError "int too large to convert to float")
  else Ok f.

(** [float(v)].  Parsing a string is Python's own and is passed in. *)
Definition py_float (float_of_str : pystr -> option float) (v : json)
  : result float :=
  match v with
  | JFloat f => Ok f
  | JInt z => float_of_int z
  | JBool b => Ok (if b then 1%float else 0%float)
  | JStr s =>
      match float_of_str s with
      | Some f => Ok f
      | None => Raise (ValueError "could not convert string to float")
      end
  | JNull | JList _ | JDict _ =>
      Raise (TypeError "float() argument must be a string or a real number")
  end.

(** *** Fixed-point formatting: [format(x, '.<d>f')] *)

Definition N_to_string (n : N) : string :=
  NilZero.string_of_uint (N.to_uint n).

Fixpoint zeros (k : nat) : string :=
  match k with
  | O => ""
  | S k' => String "0" (zeros k')
  end.

(** [n] written with at least [k] digits. *)
Definition pad_left (k : nat) (n : N) : string :=
  let s := N_to_string n in
  zeros (k - String.length s) +:+ s.

(** The integer nearest to [num / den], ties to the even one. *)
Definition round_half_even (num den : N) : N :=
  let q := (num / den)%N in
  let r := (num mod den)%N in
  match (2 * r ?= den)%N with
  | Lt => q
  | Gt => (q + 1)%N
  | Eq => if N.even q then q else (q + 1)%N
  end.

(** [|m * 2^e| * 10^d] rounded to an integer. *)
Definition scaled (d : nat) (m : positive) (e : Z) : N :=
  let p := (N.pos m * 10 ^ N.of_nat d)%N in
  match e with
  | Zneg k => round_half_even p (2 ^ N.pos k)
  | _ => (p * 2 ^ Z.to_N e)%N
  end.

(** The digits of [n / 10^d] with [d] decimals. *)
Definition fixed_digits (d : nat) (n : N) : string :=
  let unit := (10 ^ N.of_nat d)%N in
  match d with
  | O => N_to_string n
  | _ => N_to_string (n / unit) +:+ "." +:+ pad_left d (n mod unit)
  end.

Definition sign_str (s : bool) : string := if s then "-" else "".

Definition format_f (d : nat) (x : float) : string :=
  match Prim2SF x with
  | S754_nan => "nan"
  | S754_infinity s => sign_str s +:+ "inf"
  | S754_zero s => sign_str s +:+ fixed_digits d 0
  | S754_finite s m e => sign_str s +:+ fixed_digits d (scaled d m e)
  end.

(** ** Pictures *)

Definition bytes := list Byte.byte.

(** An RGBA pixel, each channel in 0..255. *)
Definition rgba : Type := N * N * N * N.

(** A decoded Pillow image in mode RGBA: its (width, height) and its
    pixels, row by row. *)
Record image := mk_image {
  img_size : nat * nat;
  img_data : list rgba
}.

(** [Image.new('RGBA', size, color)]. *)
Definition Image_new (size : nat * nat) (color : rgba) : image :=
  mk_image size (repeat color (fst size * snd size)).

(** One [AnnotationBbox(OffsetImage(img, zoom), xy, frameon=False)]. *)
Record artist := mk_artist {
  art_img : image;
  art_zoom : float;
  art_xy : float * float
}.

(** What the figure holds when it is saved: the table's cell texts under
    the fixed column labels, and the icons added beside it. *)
Record figure := mk_figure {
  fig_cells : list (list string);
  fig_artists : list artist
}.

(** ** Messages and webhook events *)

Inductive message :=
| TextSendMessage (text : string)
| ImageSendMessage (original_content_url preview_image_url : string).

(** A [MessageEvent] carrying a [TextMessage]: [event.message.text],
    [event.source.user_id] and [event.reply_token]. *)
Record MessageEvent := mk_MessageEvent {
  text : pystr;
  user_id : string;
  reply_token : string
}.

(** A handler is registered for text messages only. *)
Inductive webhook_event :=
| TextMessageEvent (ev : MessageEvent)
| OtherEvent.

(** ** The collaborators *)

(** The answers of the outside world during one webhook request. *)
Record World := mk_World {
  (** [requests.get(url, timeout=5).json()] *)
  requests_get_json : string -> result json;
  (** [requests.get(url, headers=headers, timeout=5).content] *)
  requests_get_content : string -> result bytes;
  (** [Image.open(BytesIO(content)).convert("RGBA")] *)
  image_open : bytes -> result image;
  (** the pixels computed by [img.resize(size, Image.Resampling.LANCZOS)] *)
  lanczos : image -> nat * nat -> result (list rgba);
  (** Python's [float(str)] *)
  float_of_str : pystr -> option float;
  (** [pd.DataFrame], [plt.subplots], [ax.table], the table styling and
      [fig.canvas.draw()] for these cell texts *)
  mpl_table : list (list string) -> result unit;
  (** [plt.savefig(path, bbox_inches='tight', facecolor='white')]: the PNG *)
  mpl_savefig : figure -> result bytes;
  (** [cloudinary.uploader.upload(path)] on the file's content *)
  cloudinary_upload : bytes -> result (gmap string string);
  (** [line_bot_api.reply_message(token, message)] *)
  line_reply : string -> message -> result unit;
  (** [line_bot_api.push_message(to, message)] *)
  line_push : string -> message -> result unit;
  (** the signature check and the body parser of [WebhookHandler.handle] *)
  signature_valid : string -> string -> bool;
  parse_events : string -> list webhook_event
}.

(** ** Effects *)

Inductive event :=
| EvPrint (line : string)
| EvPrintCommand (user_msg : pystr)
| EvHttpGet (url : string)
| EvSaveFig (path : string)
| EvUpload (path : string)
| EvReply (reply_token : string) (m : message)
| EvPush (to : string) (m : message)
| EvHttpResponse (status : nat).

Record state := mk_state {
  trace : list event;
  files : gmap string bytes
}.

Definition emit (ev : event) (st : state) : state :=
  mk_state (trace st ++ [ev]) (files st).

Definition write_file (path : string) (content : bytes) (st : state) : state :=
  mk_state (trace st) (<[path := content]> (files st)).

(** A computation changes the state and returns or raises; the state
    reached by the time of a raise is kept. *)
Definition M (A : Type) : Type := state -> state * result A.

Definition ret {A} (a : A) : M A := fun st => (st, Ok a).
Definition raise {A} (e : exn) : M A := fun st => (st, Raise e).

Definition bind {A B} (m : M A) (k : A -> M B) : M B :=
  fun st =>
    match m st with
    | (st', Ok a) => k a st'
    | (st', Raise e) => (st', Raise e)
    end.

(** [try: m  except Exception as e: h e] (also the bare [except:]). *)
Definition try_except {A} (m : M A) (h : exn -> M A) : M A :=
  fun st =>
    match m st with
    | (st', Ok a) => (st', Ok a)
    | (st', Raise e) => h e st'
    end.

(** [try: m  except cls: h]. *)
Definition try_except_class {A} (cls : string) (m : M A) (h : M A) : M A :=
  fun st =>
    match m st with
    | (st', Ok a) => (st', Ok a)
    | (st', Raise e) =>
        if String.eqb (exn_class e) cls then h st' else (st', Raise e)
    end.

(** A call to a collaborator: recorded when it is made, then answered. *)
Definition call {A} (ev : event) (answer : result A) : M A :=
  fun st => (emit ev st, answer).

Definition lift {A} (r : result A) : M A := fun st => (st, r).

Definition print (line : string) : M unit := call (EvPrint line) (Ok tt).

Declare Scope py_scope.
Delimit Scope py_scope with py.
Notation "x <- m ;; k" := (bind m (fun x => k))
  (at level 100, m at next level, right associativity) : py_scope.
Notation "m ;;; k" := (bind m (fun _ => k))
  (at level 100, right associativity) : py_scope.
Local Open Scope py_scope.

(** ** The inbound text: [str.strip] and [in] *)

(** [c.isspace()], the characters [str.strip()] removes. *)
Definition py_isspace (c : N) : bool :=
  ((9 <=? c) && (c <=? 13) || (28 <=? c) && (c <=? 32)
   || (c =? 133) || (c =? 160) || (c =? 5760)
   || (8192 <=? c) && (c <=? 8202)
   || (c =? 8232) || (c =? 8233) || (c =? 8239) || (c =? 8287)
   || (c =? 12288))%N.

Fixpoint py_lstrip (s : pystr) : pystr :=
  match s with
  | [] => []
  | c :: s' => if py_isspace c then py_lstrip s' else s
  end.

Definition py_rstrip (s : pystr) : pystr := rev (py_lstrip (rev s)).

Definition py_strip (s : pystr) : pystr := py_rstrip (py_lstrip s).

Fixpoint py_startswith (sub s : pystr) : bool :=
  match sub, s with
  | [], _ => true
  | _ :: _, [] => false
  | a :: sub', b :: s' => (a =? b)%N && py_startswith sub' s'
  end.

(** [sub in s]. *)
Fixpoint py_in (sub s : pystr) : bool :=
  py_startswith sub s ||
  match s with
  | [] => false
  | _ :: s' => py_in sub s'
  end.

(** ** [main.py] *)

(** *** [get_icon] (lines 30-40) *)

Definition icon_default_size : nat * nat := (120, 120)%nat.

Definition placeholder_color : rgba := (200, 200, 200, 60)%N.

Definition get_icon (w : World) (name url : string) (size : nat * nat)
  : M image :=
  try_except
    (content <- call (EvHttpGet url) (requests_get_content w url) ;;
     img <- lift (image_open w content) ;;
     data <- lift (lanczos w img size) ;;
     ret (mk_image size data))
    (fun e =>
       print ("圖示下載失敗 (" +:+ name +:+ "): " +:+ exn_str e) ;;;
       ret (Image_new size placeholder_color)).

(** *** [create_report_img] (lines 42-105) *)

Record info := mk_info { name : string; icon : string }.

(** The dict [symbols_info]; a dict keeps the order of insertion. *)
Definition symbols_info : list (string * info) :=
  [ ("fUSD", mk_info "USD" "https://static.okx.com/cdn/oksupport/asset/currency/icon/usd.png");
    ("fUST", mk_info "USDT" "https://static.okx.com/cdn/oksupport/asset/currency/icon/usdt.png");
    ("fXAUT", mk_info "XAUT" "https://static.okx.com/cdn/oksupport/asset/currency/icon/xaut.png");
    ("fBTC", mk_info "BTC" "https://static.okx.com/cdn/oksupport/asset/currency/icon/btc.png");
    ("fETH", mk_info "ETH" "https://static.okx.com/cdn/oksupport/asset/currency/icon/eth.png");
    ("fEUR", mk_info "EUR" "https://static.okx.com/cdn/oksupport/asset/currency/icon/eur.png") ].

(** An element of [results]. *)
Record row := mk_row {
  Currency : string;
  Daily : string;
  APR : string;
  row_icon : string
}.

Definition trades_url (sym : string) : string :=
  "https://api-pub.bitfinex.com/v2/trades/" +:+ sym +:+ "/hist?limit=1".

(** Lines 56-57: [rate = float(resp[0][3]) * 100]. *)
Definition fetch_rate (w : World) (sym : string) : M float :=
  resp <- call (EvHttpGet (trades_url sym)) (requests_get_json w (trades_url sym)) ;;
  first <- lift (py_getitem resp 0) ;;
  field <- lift (py_getitem first 3) ;;
  x <- lift (py_float (float_of_str w) field) ;;
  ret (PrimFloat.mul x 100%float).

(** Lines 58-63: the row of a fetched rate. *)
Definition rate_row (i : info) (rate : float) : row :=
  mk_row (name i)
         (format_f 4 rate +:+ "%")
         (format_f 2 (PrimFloat.mul rate 365%float) +:+ "%")
         (icon i).

(** Line 65: the row of a failed fetch. *)
Definition na_row (i : info) : row := mk_row (name i) "N/A" "N/A" (icon i).

(** Lines 54-65: the loop over [symbols_info.items()], appending to
    [results]. *)
Fixpoint aggregate_loop (w : World) (items : list (string * info))
  (results : list row) : M (list row) :=
  match items with
  | [] => ret results
  | (sym, i) :: items' =>
      results' <- try_except
                    (rate <- fetch_rate w sym ;;
                     ret (results ++ [rate_row i rate]))
                    (fun _ => ret (results ++ [na_row i])) ;;
      aggregate_loop w items' results'
  end.

(** Lines 53-65. *)
Definition aggregate (w : World) : M (list row) :=
  aggregate_loop w symbols_info [].

(** [df[['Currency', 'Daily', 'APR']].values]. *)
Definition cell_text (rows : list row) : list (list string) :=
  map (fun r => [Currency r; Daily r; APR r]) rows.

Definition icon_zoom : float := 0.22%float.

(** Line 98: [(0.28, 0.745 - (i * 0.117))]. *)
Definition icon_xy (i : nat) : float * float :=
  (0.28%float,
   PrimFloat.sub 0.745%float
     (PrimFloat.mul (nearest_float (Z.of_nat i)) 0.117%float)).

(** Lines 95-99: the loop over [df.iterrows()], [i] being the row's index. *)
Fixpoint icon_loop (w : World) (i : nat) (rows : list row)
  (artists : list artist) : M (list artist) :=
  match rows with
  | [] => ret artists
  | r :: rows' =>
      img_icon <- get_icon w (Currency r) (row_icon r) icon_default_size ;;
      icon_loop w (S i) rows'
        (artists ++ [mk_artist img_icon icon_zoom (icon_xy i)])
  end.

Definition report_path : string := "line_report.png".

(** [plt.savefig(report_path, ...)]: the file is written when the call
    succeeds. *)
Definition savefig (w : World) (path : string) (fig : figure) : M unit :=
  png <- call (EvSaveFig path) (mpl_savefig w fig) ;;
  fun st => (write_file path png st, Ok tt).

(** Lines 67-105. *)
Definition render (w : World) (results : list row) : M string :=
  lift (mpl_table w (cell_text results)) ;;;
  artists <- icon_loop w 0 results [] ;;
  savefig w report_path (mk_figure (cell_text results) artists) ;;;
  ret report_path.

Definition create_report_img (w : World) : M string :=
  results <- aggregate w ;;
  render w results.

(** *** [handle_message] (lines 118-151) *)

(** The keyword, U+5229 U+7387. *)
Definition keyword : pystr := [21033; 29575]%N.

Definition ack_text : string :=
  "📊 正在抓取數據並生成報表，請稍候約 3-5 秒...".

Definition FileNotFoundError (path : string) :=
  mk_exn "FileNotFoundError" ("No such file or directory: '" +:+ path +:+ "'").

(** [cloudinary.uploader.upload(path)] sends what the file holds. *)
Definition upload (w : World) (path : string) : M (gmap string string) :=
  fun st =>
    call (EvUpload path)
         (match files st !! path with
          | Some content => cloudinary_upload w content
          | None => Raise (FileNotFoundError path)
          end) st.

(** [d[key]]. *)
Definition dict_getitem (d : gmap string string) (key : string)
  : result string :=
  match d !! key with
  | Some v => Ok v
  | None => Raise (KeyError key)
  end.

(** Lines 138-140. *)
Definition upload_report (w : World) (path : string) : M string :=
  upload_result <- upload w path ;;
  img_url <- lift (dict_getitem upload_result "secure_url") ;;
  print ("✅ Cloudinary 上傳成功: " +:+ img_url) ;;;
  ret img_url.

(** Lines 135-146, the body of the [try]. *)
Definition deliver (w : World) (uid : string) : M unit :=
  path <- create_report_img w ;;
  img_url <- upload_report w path ;;
  call (EvPush uid (ImageSendMessage img_url img_url))
       (line_push w uid (ImageSendMessage img_url img_url)).

Definition error_msg (e : exn) : string := "❌ 報表處理失敗: " +:+ exn_str e.

(** Lines 149-151, the [except Exception as e] clause. *)
Definition report_failure (w : World) (uid : string) (e : exn) : M unit :=
  print (error_msg e) ;;;
  call (EvPush uid (TextSendMessage (error_msg e)))
       (line_push w uid (TextSendMessage (error_msg e))).

Definition handle_message (w : World) (ev : MessageEvent) : M unit :=
  let user_msg := py_strip (text ev) in
  let uid := user_id ev in
  call (EvPrintCommand user_msg) (Ok tt) ;;;
  if py_in keyword user_msg then
    call (EvReply (reply_token ev) (TextSendMessage ack_text))
         (line_reply w (reply_token ev) (TextSendMessage ack_text)) ;;;
    try_except (deliver w uid) (report_failure w uid)
  else ret tt.

(** *** [callback] (lines 108-116) *)

Definition InvalidSignatureError : exn :=
  mk_exn "InvalidSignatureError" "Invalid signature.".

(** [abort(400)]. *)
Definition BadRequest : exn := mk_exn "BadRequest" "400 Bad Request".

(** The SDK calls the registered handler on each event, in order. *)
Fixpoint dispatch (w : World) (events : list webhook_event) : M unit :=
  match events with
  | [] => ret tt
  | TextMessageEvent ev :: events' => handle_message w ev ;;; dispatch w events'
  | OtherEvent :: events' => dispatch w events'
  end.

(** [handler.handle(body, signature)] of the LINE SDK. *)
Definition handler_handle (w : World) (body signature : string) : M unit :=
  if signature_valid w body signature
  then dispatch w (parse_events w body)
  else raise InvalidSignatureError.

Definition callback (w : World) (signature body : string) : M string :=
  try_except_class "InvalidSignatureError"
    (handler_handle w body signature)
    (raise BadRequest) ;;;
  ret "OK".

(** Flask answers the POST once the view function has returned or
    raised. *)
Definition http_status (r : result string) : nat :=
  match r with
  | Ok _ => 200
  | Raise e => if String.eqb (exn_class e) "BadRequest" then 400 else 500
  end.

Definition serve (w : World) (signature body : string) (st : state) : state :=
  let (st', r) := callback w signature body st in
  emit (EvHttpResponse (http_status r)) st'.

Definition init_state : state := mk_state [] ∅.

(** * Vocabulary of the statements *)

(** The daily rate of an instrument in a world: the value the [try] block
    computes, or nothing when the block raises. *)
Definition daily_rate (w : World) (sym : string) : option float :=
  match snd (fetch_rate w sym init_state) with
  | Ok rate => Some rate
  | Raise _ => None
  end.

(** The row the loop owes to an entry of [symbols_info]. *)
Definition row_of (w : World) (item : string * info) : row :=
  match daily_rate w (fst item) with
  | Some rate => rate_row (snd item) rate
  | None => na_row (snd item)
  end.

(** The request the loop makes for an entry. *)
Definition quote_event (item : string * info) : event :=
  EvHttpGet (trades_url (fst item)).

(** [sub] occurs in [s] as a run of consecutive characters. *)
Definition is_substring (sub s : pystr) : Prop :=
  exists l1 l2, s = l1 ++ sub ++ l2.

(** What a run added to the trace. *)
Definition new_events (st st' : state) : list event :=
  drop (length (trace st)) (trace st').

(** The messages pushed, and the replies made, in a stretch of trace. *)
Definition pushed (t : list event) : list (string * message) :=
  omap (fun e => match e with EvPush to m => Some (to, m) | _ => None end) t.

Definition replied (t : list event) : list (string * message) :=
  omap (fun e => match e with EvReply tok m => Some (tok, m) | _ => None end) t.


(** A step of the slow work: fetching, drawing, uploading, pushing. *)
Definition is_pipeline_event (e : event) : bool :=
  match e with
  | EvHttpGet _ | EvSaveFig _ | EvUpload _ | EvPush _ _ => true
  | _ => false
  end.

(** The events of making the report: requests, log lines, the save. *)
Definition report_event (e : event) : Prop :=
  match e with
  | EvHttpGet _ | EvPrint _ | EvSaveFig _ => True
  | _ => False
  end.

(** What may follow the acknowledgement in a run for user [uid]: no
    second reply, and pushes to [uid] only. *)
Definition after_ack (uid : string) (e : event) : Prop :=
  match e with
  | EvReply _ _ | EvHttpResponse _ | EvPrintCommand _ => False
  | EvPush to _ => to = uid
  | _ => True
  end.

(** The events of making and uploading the report: none is a message. *)
Definition silent (e : event) : Prop :=
  match e with
  | EvHttpGet _ | EvPrint _ | EvSaveFig _ | EvUpload _ => True
  | _ => False
  end.

(** The state once the command is logged and the acknowledgement replied. *)
Definition acked (ev : MessageEvent) (st : state) : state :=
  emit (EvReply (reply_token ev) (TextSendMessage ack_text))
       (emit (EvPrintCommand (py_strip (text ev))) st).

(** What one call of the handler adds to the trace. *)
Definition run_events (w : World) (ev : MessageEvent) (st : state)
  : list event :=
  new_events st (fst (handle_message w ev st)).

Definition not_response (e : event) : Prop :=
  match e with
  | EvHttpResponse _ => False
  | _ => True
  end.

(** [m] extends the trace by events that satisfy [P]. *)
Definition emits (P : event -> Prop) {A} (m : M A) : Prop :=
  forall st, exists t,
    trace (fst (m st)) = trace st ++ t /\ Forall P t.

(** [m1] and [m2] leave the files alone, and from any two states add the
    same events, all in [P], and end alike. *)
Definition sim (P : event -> Prop) {A} (m1 m2 : M A) : Prop :=
  forall st1 st2, exists t r,
    Forall P t
    /\ m1 st1 = (mk_state (trace st1 ++ t) (files st1), r)
    /\ m2 st2 = (mk_state (trace st2 ++ t) (files st2), r).

(** Two worlds with the same upstream responses: the quote payloads and
    the icon bytes of the six instruments.  The libraries (Pillow,
    matplotlib, [float]) are the same functions in both. *)
Record agree (w1 w2 : World) : Prop := mk_agree {
  agree_quotes : forall item, In item symbols_info ->
    requests_get_json w1 (trades_url (fst item))
    = requests_get_json w2 (trades_url (fst item));
  agree_icons : forall item, In item symbols_info ->
    requests_get_content w1 (icon (snd item))
    = requests_get_content w2 (icon (snd item));
  agree_open : forall c, image_open w1 c = image_open w2 c;
  agree_lanczos : forall im size, lanczos w1 im size = lanczos w2 im size;
  agree_float : forall s, float_of_str w1 s = float_of_str w2 s;
  agree_table : forall cells, mpl_table w1 cells = mpl_table w2 cells;
  agree_savefig : forall fig, mpl_savefig w1 fig = mpl_savefig w2 fig
}.

(** The webhook is answered before the slow work: every pipeline event of
    the trace comes after an HTTP response. *)
Definition answered_before_pipeline (t : list event) : Prop :=
  forall pre e post,
    t = pre ++ e :: post -> is_pipeline_event e = true ->
    exists status, In (EvHttpResponse status) pre.

(** The files after a run that saved [o] (or nothing) as the report. *)
Definition saved (o : option bytes) (fs : gmap string bytes)
  : gmap string bytes :=
  match o with
  | Some png => <[report_path := png]> fs
  | None => fs
  end.

(** ** Scenarios *)

(** A state with a history: an earlier report is on disk. *)
Definition state_after_a_run : state :=
  mk_state [EvPrint "boot"; EvSaveFig report_path]
           {[ report_path := [Byte.x00; Byte.x01] ]}.

(** The source value 0.0001, as a JSON decoder reads it. *)
Definition raw_0_0001 : float := 0.0001%float.

(** A funding trade [ID, MTS, AMOUNT, RATE, PERIOD] with rate 0.0001. *)
Definition trade_0_0001 : json :=
  JList [JList [JInt 401597395; JInt 1574694478808; JFloat 132.5%float;
                JFloat raw_0_0001; JInt 2]].

Definition text_rate_today : pystr := [20170; 26085; 21033; 29575; 63]%N.
Definition text_hello : pystr := [104; 101; 108; 108; 111]%N.

Definition demo_url : string := "https://res.cloudinary.com/demo/line_report.png".

Definition demo_event (msg : pystr) : MessageEvent :=
  mk_MessageEvent msg "U4af4980629" "nHuyWiB7yP5Zw52FIkcQobQuGDXCTA".

(** A world where the quotes read 0.0001 and the icon hosts are down; the
    upload and the pushes answer as given. *)
Definition demo_world (quotes : string -> result json)
  (up : result (gmap string string))
  (push : string -> message -> result unit) (msg : pystr) : World :=
  mk_World
    quotes
    (fun _ => Raise (mk_exn "ConnectionError" "Max retries exceeded"))
    (fun _ => Raise (mk_exn "UnidentifiedImageError" "cannot identify image file"))
    (fun _ _ => Raise (ValueError "height and width must be > 0"))
    (fun _ => None)
    (fun _ => Ok tt)
    (fun _ => Ok [Byte.x89; Byte.x50; Byte.x4e; Byte.x47])
    (fun _ => up)
    (fun _ _ => Ok tt)
    push
    (fun _ _ => true)
    (fun _ => [TextMessageEvent (demo_event msg)]).

Definition world_ok : World :=
  demo_world (fun _ => Ok trade_0_0001)
             (Ok {[ "secure_url" := demo_url ]})
             (fun _ _ => Ok tt) text_rate_today.

Definition world_upload_fails : World :=
  demo_world (fun _ => Ok trade_0_0001)
             (Raise (mk_exn "Error" "Invalid cloud_name"))
             (fun _ _ => Ok tt) text_rate_today.

Definition world_image_push_fails : World :=
  demo_world (fun _ => Ok trade_0_0001)
             (Ok {[ "secure_url" := demo_url ]})
             (fun _ m =>
                match m with
                | ImageSendMessage _ _ =>
                    Raise (mk_exn "LineBotApiError" "status_code=429")
                | TextSendMessage _ => Ok tt
                end) text_rate_today.


(** ** Vocabulary of the further properties *)

(** The urls requested in a stretch of trace, in order. *)
Definition http_gets (t : list event) : list string :=
  omap (fun e => match e with EvHttpGet url => Some url | _ => None end) t.

(** The icons of a figure: the [i]-th image at [icon_xy i], counting from
    the index given. *)
Fixpoint place_icons (i : nat) (imgs : list image) : list artist :=
  match imgs with
  | [] => []
  | im :: imgs' => mk_artist im icon_zoom (icon_xy i) :: place_icons (S i) imgs'
  end.

(** The log line of [get_icon]'s [except] clause. *)
Definition icon_failure_line (name : string) (e : exn) : string :=
  "圖示下載失敗 (" +:+ name +:+ "): " +:+ exn_str e.



(** A payload from which [resp[0][3]] cannot be read. *)
Definition no_rate_field (resp : json) : Prop :=
  resp = JNull
  \/ resp = JList []
  \/ (exists d, resp = JDict d)
  \/ (exists record more, resp = JList (JList record :: more)
                          /\ length record <= 3).

(** The text events of a body that start a run. *)
Definition runs (events : list webhook_event) : list MessageEvent :=
  omap (fun wev => match wev with
                   | TextMessageEvent ev =>
                       if py_in keyword (py_strip (text ev)) then Some ev
                       else None
                   | OtherEvent => None
                   end) events.

(** Neither nan nor an infinity. *)
Definition is_finite (x : float) : bool :=
  match Prim2SF x with
  | S754_zero _ | S754_finite _ _ _ => true
  | _ => false
  end.

(** The [k] low decimal digits of [n], lowest first. *)
Definition lu_digit (r : N) (d : Decimal.uint) : Decimal.uint :=
  match r with
  | 0 => Decimal.D0 d | 1 => Decimal.D1 d | 2 => Decimal.D2 d
  | 3 => Decimal.D3 d | 4 => Decimal.D4 d | 5 => Decimal.D5 d
  | 6 => Decimal.D6 d | 7 => Decimal.D7 d | 8 => Decimal.D8 d
  | _ => Decimal.D9 d
  end%N.

Fixpoint lu_digits (k : nat) (n : N) : Decimal.uint :=
  match k with
  | O => Decimal.Nil
  | S k' => lu_digit (n mod 10) (lu_digits k' (n / 10))
  end.

(** ** Further scenarios *)


Definition with_events (events : list webhook_event) (w : World) : World :=
  mk_World (requests_get_json w) (requests_get_content w) (image_open w)
           (lanczos w) (float_of_str w) (mpl_table w) (mpl_savefig w)
           (cloudinary_upload w) (line_reply w) (line_push w)
           (signature_valid w) (fun _ => events).

Definition with_reply (reply : string -> message -> result unit) (w : World)
  : World :=
  mk_World (requests_get_json w) (requests_get_content w) (image_open w)
           (lanczos w) (float_of_str w) (mpl_table w) (mpl_savefig w)
           (cloudinary_upload w) reply (line_push w)
           (signature_valid w) (parse_events w).

Definition with_table (table : list (list string) -> result unit) (w : World)
  : World :=
  mk_World (requests_get_json w) (requests_get_content w) (image_open w)
           (lanczos w) (float_of_str w) table (mpl_savefig w)
           (cloudinary_upload w) (line_reply w) (line_push w)
           (signature_valid w) (parse_events w).



Definition world_reply_fails : World :=
  with_reply (fun _ _ => Raise (mk_exn "LineBotApiError" "Invalid reply token"))
    (with_events [TextMessageEvent (demo_event text_rate_today);
                  TextMessageEvent (demo_event text_rate_today)] world_ok).

Definition world_no_secure_url : World :=
  demo_world (fun _ => Ok trade_0_0001)
             (Ok {[ "public_id" := "line_report" ]})
             (fun _ _ => Ok tt) text_rate_today.

Definition world_quotes_down : World :=
  demo_world (fun _ => Raise (mk_exn "ReadTimeout" "Read timed out."))
             (Ok {[ "secure_url" := demo_url ]})
             (fun _ _ => Ok tt) text_rate_today.

Definition world_empty_quotes : World :=
  demo_world (fun _ => Ok (JList []))
             (Ok {[ "secure_url" := demo_url ]})
             (fun _ _ => Ok tt) text_rate_today.

Definition world_table_fails : World :=
  with_table (fun _ => Raise (mk_exn "RuntimeError" "main thread is not in main loop"))
             world_ok.

(** * Properties *)

Example format_f_samples :
  format_f 4 0.01%float = "0.0100"
  /\ format_f 2 3.65%float = "3.65"
  /\ format_f 2 0.125%float = "0.12"
  /\ format_f 2 0.375%float = "0.38"
  /\ format_f 2 (-0.001)%float = "-0.00"
  /\ format_f 4 12345.678%float = "12345.6780"
  /\ format_f 0 2.5%float = "2"
  /\ format_f 2 (PrimFloat.div 0 0) = "nan"
  /\ format_f 2 (PrimFloat.div (-1) 0) = "-inf".
Proof. vm_compute. repeat split. Qed.

(** [round_half_even] is within one half of the quotient. *)
Lemma round_half_even_nearest (num den : N) :
  den <> 0%N ->
  (2 * (round_half_even num den * den) <= 2 * num + den
   /\ 2 * num <= 2 * (round_half_even num den * den) + den)%N.
Proof.
  intros Hden. unfold round_half_even.
  pose proof (N.div_mod num den Hden) as Hdm.
  pose proof (N.mod_lt num den Hden) as Hlt.
  set (q := (num / den)%N) in *. set (r := (num mod den)%N) in *.
  destruct (N.compare_spec (2 * r) den) as [Heq|Hcmp|Hcmp];
    [destruct (N.even q)| |]; nia.
Qed.

(** The literal is the binary64 value nearest to 1/10000, and times 100
    it is the value nearest to 1/100. *)
Example raw_0_0001_nearest :
  raw_0_0001 = PrimFloat.div 1 10000
  /\ PrimFloat.mul raw_0_0001 100 = PrimFloat.div 1 100.
Proof. vm_compute. split; reflexivity. Qed.

(** ** The aggregation (lines 53-65) *)

Lemma fetch_rate_run w sym st :
  fetch_rate w sym st
  = (emit (EvHttpGet (trades_url sym)) st, snd (fetch_rate w sym init_state)).
Proof.
  unfold fetch_rate, bind, call, lift, ret; simpl.
  destruct (requests_get_json w (trades_url sym)) as [resp|e]; [|reflexivity].
  destruct (py_getitem resp 0) as [first|e]; [|reflexivity].
  destruct (py_getitem first 3) as [field|e]; [|reflexivity].
  destruct (py_float (float_of_str w) field); reflexivity.
Qed.

(** One turn of the loop appends exactly the row owed to the entry, whatever
    the fetch does. *)
Lemma aggregate_step w sym i results st :
  try_except
    (rate <- fetch_rate w sym ;; ret (results ++ [rate_row i rate]))
    (fun _ => ret (results ++ [na_row i])) st
  = (emit (EvHttpGet (trades_url sym)) st, Ok (results ++ [row_of w (sym, i)])).
Proof.
  unfold try_except, bind, row_of, daily_rate; simpl.
  rewrite fetch_rate_run; simpl.
  destruct (snd (fetch_rate w sym init_state)); reflexivity.
Qed.

Lemma aggregate_loop_run w items : forall results st,
  aggregate_loop w items results st
  = (mk_state (trace st ++ map quote_event items) (files st),
     Ok (results ++ map (row_of w) items)).
Proof.
  induction items as [|[sym i] items IH]; intros results [t fs]; simpl.
  - unfold ret. now rewrite !app_nil_r.
  - unfold bind at 1. rewrite aggregate_step. rewrite IH.
    unfold emit, quote_event; simpl. now rewrite <- !app_assoc.
Qed.

Lemma aggregate_run w st :
  aggregate w st
  = (mk_state (trace st ++ map quote_event symbols_info) (files st),
     Ok (map (row_of w) symbols_info)).
Proof. apply (aggregate_loop_run w symbols_info [] st). Qed.

Lemma aggregate_rows w st :
  exists st', aggregate w st = (st', Ok (map (row_of w) symbols_info)).
Proof. eexists. apply aggregate_run. Qed.

Lemma row_of_Currency w item : Currency (row_of w item) = name (snd item).
Proof. unfold row_of. destruct (daily_rate w (fst item)); reflexivity. Qed.

Lemma row_of_icon w item : row_icon (row_of w item) = icon (snd item).
Proof. unfold row_of. destruct (daily_rate w (fst item)); reflexivity. Qed.

(** C1.  Whatever the six fetches do, the aggregation returns (it does not
    raise) six rows, one per entry of [symbols_info] and in its order; these
    rows are what the rendering code receives. *)
Theorem aggregate_one_row_per_instrument (w : World) (st : state) :
  exists st' rows,
    aggregate w st = (st', Ok rows)
    /\ create_report_img w st = render w rows st'
    /\ length rows = 6
    /\ map Currency rows = ["USD"; "USDT"; "XAUT"; "BTC"; "ETH"; "EUR"]
    /\ map Currency rows = map (fun item => name (snd item)) symbols_info
    /\ map row_icon rows = map (fun item => icon (snd item)) symbols_info.
Proof.
  destruct (aggregate_rows w st) as [st' H].
  exists st', (map (row_of w) symbols_info).
  assert (Hc : map Currency (map (row_of w) symbols_info)
               = map (fun item => name (snd item)) symbols_info).
  { rewrite map_map. apply map_ext. intros item. apply row_of_Currency. }
  assert (Hi : map row_icon (map (row_of w) symbols_info)
               = map (fun item => icon (snd item)) symbols_info).
  { rewrite map_map. apply map_ext. intros item. apply row_of_icon. }
  split; [exact H|]. split.
  { unfold create_report_img, bind. now rewrite H. }
  split; [now rewrite length_map|].
  split; [now rewrite Hc|]. split; assumption.
Qed.

(** C2.  Every row of the aggregation comes from its instrument's daily
    rate: when the rate is there, Daily is the rate with 4 decimals and APR
    is the rate times 365 with 2 decimals, each followed by a percent sign;
    when it is not, both are "N/A". *)
Theorem aggregate_apr_from_daily (w : World) (st : state) :
  exists st' rows,
    aggregate w st = (st', Ok rows)
    /\ Forall2
         (fun item r =>
            match daily_rate w (fst item) with
            | Some rate =>
                Daily r = format_f 4 rate +:+ "%"
                /\ APR r = format_f 2 (PrimFloat.mul rate 365%float) +:+ "%"
            | None => Daily r = "N/A" /\ APR r = "N/A"
            end)
         symbols_info rows.
Proof.
  destruct (aggregate_rows w st) as [st' H].
  exists st', (map (row_of w) symbols_info). split; [exact H|].
  apply Forall2_fmap_r, Forall_Forall2_diag, Forall_forall.
  intros item _. unfold row_of, compose. cbv beta.
  destruct (daily_rate w (fst item)); simpl; split; reflexivity.
Qed.

(** C8.  An instrument whose payload carries the raw value 0.0001 gets the
    daily rate 0.01 (the raw value times 100) and the row "0.0100%",
    "3.65%". *)
Theorem raw_0_0001_row (w : World) (st : state) (sym : string) (i : info)
  (resp first : json) :
  In (sym, i) symbols_info ->
  requests_get_json w (trades_url sym) = Ok resp ->
  py_getitem resp 0 = Ok first ->
  py_getitem first 3 = Ok (JFloat raw_0_0001) ->
  daily_rate w sym = Some 0.01%float
  /\ exists st' rows,
       aggregate w st = (st', Ok rows)
       /\ In (mk_row (name i) "0.0100%" "3.65%" (icon i)) rows.
Proof.
  intros Hin Hresp Hfirst Hfield.
  assert (Hrate : daily_rate w sym = Some 0.01%float).
  { unfold daily_rate, fetch_rate, bind, call, lift, ret; simpl.
    rewrite Hresp, Hfirst, Hfield. reflexivity. }
  split; [exact Hrate|].
  eexists _, _. split; [apply aggregate_run|].
  apply in_map_iff. exists (sym, i). split; [|exact Hin].
  unfold row_of; simpl. rewrite Hrate. reflexivity.
Qed.

Lemma raw_0_0001_row_witness :
  daily_rate world_ok "fBTC" = Some 0.01%float
  /\ exists st' rows,
       aggregate world_ok init_state = (st', Ok rows)
       /\ In (mk_row "BTC" "0.0100%" "3.65%"
                "https://static.okx.com/cdn/oksupport/asset/currency/icon/btc.png")
             rows.
Proof.
  apply (raw_0_0001_row world_ok init_state "fBTC"
           (mk_info "BTC" "https://static.okx.com/cdn/oksupport/asset/currency/icon/btc.png")
           trade_0_0001
           (JList [JInt 401597395; JInt 1574694478808; JFloat 132.5%float;
                   JFloat raw_0_0001; JInt 2])).
  - simpl. tauto.
  - reflexivity.
  - reflexivity.
  - reflexivity.
Defined.

(** ** How computations extend the trace *)

Section TraceLemmas.
Context {A B : Type}.
Variable P : event -> Prop.

Lemma sim_ret (a : A) : sim P (ret a) (ret a).
Proof.
  intros [t1 f1] [t2 f2]. exists [], (Ok a). unfold ret; simpl.
  now rewrite !app_nil_r.
Qed.

Lemma sim_lift (r1 r2 : result A) : r1 = r2 -> sim P (lift r1) (lift r2).
Proof.
  intros <- [t1 f1] [t2 f2]. exists [], r1. unfold lift; simpl.
  now rewrite !app_nil_r.
Qed.

Lemma sim_call (ev : event) (r1 r2 : result A) :
  P ev -> r1 = r2 -> sim P (call ev r1) (call ev r2).
Proof.
  intros Hev <- st1 st2. exists [ev], r1.
  split; [now constructor|]. split; reflexivity.
Qed.

Lemma sim_bind (m1 m2 : M A) (k1 k2 : A -> M B) :
  sim P m1 m2 -> (forall a, sim P (k1 a) (k2 a)) ->
  sim P (bind m1 k1) (bind m2 k2).
Proof.
  intros Hm Hk st1 st2. unfold bind.
  destruct (Hm st1 st2) as (t & r & Ht & -> & ->).
  destruct r as [a|e].
  - destruct (Hk a (mk_state (trace st1 ++ t) (files st1))
                   (mk_state (trace st2 ++ t) (files st2)))
      as (t' & r' & Ht' & -> & ->); simpl.
    exists (t ++ t'), r'. rewrite !app_assoc.
    split; [now apply Forall_app|]. split; reflexivity.
  - exists t, (Raise e). split; [exact Ht|]. split; reflexivity.
Qed.

Lemma sim_try (m1 m2 : M A) (h1 h2 : exn -> M A) :
  sim P m1 m2 -> (forall e, sim P (h1 e) (h2 e)) ->
  sim P (try_except m1 h1) (try_except m2 h2).
Proof.
  intros Hm Hh st1 st2. unfold try_except.
  destruct (Hm st1 st2) as (t & r & Ht & -> & ->).
  destruct r as [a|e].
  - exists t, (Ok a). split; [exact Ht|]. split; reflexivity.
  - destruct (Hh e (mk_state (trace st1 ++ t) (files st1))
                   (mk_state (trace st2 ++ t) (files st2)))
      as (t' & r' & Ht' & -> & ->); simpl.
    exists (t ++ t'), r'. rewrite !app_assoc.
    split; [now apply Forall_app|]. split; reflexivity.
Qed.

Lemma emits_ret (a : A) : emits P (ret a).
Proof. intros st. exists []. split; [now rewrite app_nil_r|constructor]. Qed.

Lemma emits_bind (m : M A) (k : A -> M B) :
  emits P m -> (forall a, emits P (k a)) -> emits P (bind m k).
Proof.
  intros Hm Hk st. unfold bind.
  destruct (Hm st) as (t & Ht & HP). destruct (m st) as [st' [a|e]]; simpl in *.
  - destruct (Hk a st') as (t' & Ht' & HP').
    exists (t ++ t'). rewrite Ht', Ht, app_assoc.
    split; [reflexivity|now apply Forall_app].
  - exists t. now split.
Qed.

End TraceLemmas.

Lemma new_events_app st st' t :
  trace st' = trace st ++ t -> new_events st st' = t.
Proof. intros H. unfold new_events. rewrite H. apply drop_app_length. Qed.

(** ** The icon resolver (lines 30-40) *)



Lemma sim_get_icon (w1 w2 : World) (name url : string) (size : nat * nat) :
  requests_get_content w1 url = requests_get_content w2 url ->
  (forall c, image_open w1 c = image_open w2 c) ->
  (forall im sz, lanczos w1 im sz = lanczos w2 im sz) ->
  sim report_event (get_icon w1 name url size) (get_icon w2 name url size).
Proof.
  intros Hget Hopen Hres. unfold get_icon.
  apply sim_try.
  - apply sim_bind; [now apply sim_call|]. intros content.
    apply sim_bind; [now apply sim_lift|]. intros img.
    apply sim_bind; [now apply sim_lift|]. intros data.
    apply sim_ret.
  - intros e. apply sim_bind; [now apply sim_call|]. intros _.
    apply sim_ret.
Qed.

(** ** The rendering (lines 67-105) and the whole report *)

Lemma sim_icon_loop (w1 w2 : World) (rows : list row) :
  (forall r, In r rows ->
     requests_get_content w1 (row_icon r) = requests_get_content w2 (row_icon r)) ->
  (forall c, image_open w1 c = image_open w2 c) ->
  (forall im sz, lanczos w1 im sz = lanczos w2 im sz) ->
  forall i artists,
    sim report_event (icon_loop w1 i rows artists) (icon_loop w2 i rows artists).
Proof.
  intros Hget Hopen Hres.
  induction rows as [|r rows IH]; intros i artists; simpl.
  - apply sim_ret.
  - apply sim_bind.
    + apply sim_get_icon; auto. apply Hget. now left.
    + intros img. apply IH. intros r' Hr'. apply Hget. now right.
Qed.

(** The two renderings add the same events and save the same bytes, and a
    rendering that returns has saved its picture. *)
Lemma render_sim (w1 w2 : World) (rows : list row) :
  (forall r, In r rows ->
     requests_get_content w1 (row_icon r) = requests_get_content w2 (row_icon r)) ->
  (forall c, image_open w1 c = image_open w2 c) ->
  (forall im sz, lanczos w1 im sz = lanczos w2 im sz) ->
  (forall cells, mpl_table w1 cells = mpl_table w2 cells) ->
  (forall fig, mpl_savefig w1 fig = mpl_savefig w2 fig) ->
  forall st1 st2, exists t o r,
    Forall report_event t
    /\ render w1 rows st1 = (mk_state (trace st1 ++ t) (saved o (files st1)), r)
    /\ render w2 rows st2 = (mk_state (trace st2 ++ t) (saved o (files st2)), r)
    /\ (forall p, r = Ok p -> p = report_path /\ exists png, o = Some png).
Proof.
  intros Hget Hopen Hres Htab Hsave st1 st2.
  unfold render, bind, lift. rewrite <- Htab.
  destruct (mpl_table w1 (cell_text rows)) as [[]|e].
  2:{ exists [], None, (Raise e). rewrite !app_nil_r. destruct st1, st2.
      repeat split; try constructor; discriminate. }
  destruct (sim_icon_loop w1 w2 rows Hget Hopen Hres 0 [] st1 st2)
    as (t & r & Ht & -> & ->).
  destruct r as [artists|e].
  2:{ exists t, None, (Raise e). repeat split; try assumption; discriminate. }
  unfold savefig, bind, call, ret, write_file, emit; simpl.
  rewrite <- Hsave.
  destruct (mpl_savefig w1 (mk_figure (cell_text rows) artists)) as [png|e].
  - exists (t ++ [EvSaveFig report_path]), (Some png), (Ok report_path).
    rewrite !app_assoc. split.
    { apply Forall_app. split; [exact Ht|]. now repeat constructor. }
    split; [reflexivity|]. split; [reflexivity|].
    intros p [= <-]. split; [reflexivity|now exists png].
  - exists (t ++ [EvSaveFig report_path]), None, (Raise e).
    rewrite !app_assoc. split.
    { apply Forall_app. split; [exact Ht|]. now repeat constructor. }
    repeat split; discriminate.
Qed.

Lemma daily_rate_agree (w1 w2 : World) (sym : string) :
  requests_get_json w1 (trades_url sym) = requests_get_json w2 (trades_url sym) ->
  (forall s, float_of_str w1 s = float_of_str w2 s) ->
  daily_rate w1 sym = daily_rate w2 sym.
Proof.
  intros Hq Hf. unfold daily_rate, fetch_rate, bind, call, lift, ret; simpl.
  rewrite <- Hq. destruct (requests_get_json w1 (trades_url sym)); [|reflexivity].
  destruct (py_getitem a 0) as [first|]; [|reflexivity].
  destruct (py_getitem first 3) as [field|]; [|reflexivity].
  replace (py_float (float_of_str w2) field)
    with (py_float (float_of_str w1) field); [reflexivity|].
  destruct field; simpl; try reflexivity. now rewrite Hf.
Qed.

Lemma rows_agree (w1 w2 : World) :
  agree w1 w2 ->
  map (row_of w1) symbols_info = map (row_of w2) symbols_info.
Proof.
  intros Hag. apply map_ext_in. intros item Hin. unfold row_of.
  rewrite (daily_rate_agree w1 w2 (fst item));
    [reflexivity|now apply agree_quotes|apply (agree_float _ _ Hag)].
Qed.

Lemma create_report_img_sim (w1 w2 : World) :
  agree w1 w2 ->
  forall st1 st2, exists t o r,
    Forall report_event t
    /\ create_report_img w1 st1
       = (mk_state (trace st1 ++ t) (saved o (files st1)), r)
    /\ create_report_img w2 st2
       = (mk_state (trace st2 ++ t) (saved o (files st2)), r)
    /\ (forall p, r = Ok p -> p = report_path /\ exists png, o = Some png).
Proof.
  intros Hag st1 st2. unfold create_report_img, bind.
  rewrite !aggregate_run, <- (rows_agree w1 w2 Hag).
  destruct (render_sim w1 w2 (map (row_of w1) symbols_info)) with
    (st1 := mk_state (trace st1 ++ map quote_event symbols_info) (files st1))
    (st2 := mk_state (trace st2 ++ map quote_event symbols_info) (files st2))
    as (t & o & r & Ht & H1 & H2 & Hok); try apply Hag.
  { intros r Hr. apply in_map_iff in Hr as (item & <- & Hin).
    rewrite row_of_icon. now apply agree_icons. }
  exists (map quote_event symbols_info ++ t), o, r.
  rewrite H1, H2. cbn [trace files]. rewrite !app_assoc.
  split; [|split; [reflexivity|split; [reflexivity|exact Hok]]].
  apply Forall_app. split; [|exact Ht]. now repeat constructor.
Qed.

Lemma agree_refl (w : World) : agree w w.
Proof. now constructor. Qed.




(** ** The trigger (lines 120-126) *)

Lemma py_startswith_spec (sub s : pystr) :
  py_startswith sub s = true <-> exists l2, s = sub ++ l2.
Proof.
  revert s. induction sub as [|a sub IH]; intros s; simpl.
  - split; [intros _; now exists s|reflexivity].
  - destruct s as [|b s].
    + split; [discriminate|intros [l2 [=]]].
    + rewrite andb_true_iff, N.eqb_eq, IH. split.
      * intros [-> [l2 ->]]. now exists l2.
      * intros [l2 [= -> ->]]. split; [reflexivity|now exists l2].
Qed.

Lemma py_in_spec (sub s : pystr) :
  py_in sub s = true <-> is_substring sub s.
Proof.
  unfold is_substring. induction s as [|c s IH]; simpl.
  - rewrite orb_false_r, py_startswith_spec. split.
    + intros [l2 H]. now exists [], l2.
    + intros (l1 & l2 & H). destruct l1 as [|x l1]; simpl in H;
        [now exists l2|discriminate].
  - rewrite orb_true_iff, py_startswith_spec, IH. split.
    + intros [[l2 H] | (l1 & l2 & ->)].
      * now exists [], l2.
      * now exists (c :: l1), l2.
    + intros (l1 & l2 & H). destruct l1 as [|x l1]; simpl in H.
      * left. now exists l2.
      * right. injection H as -> ->. now exists l1, l2.
Qed.

Lemma is_substring_rev (sub s : pystr) :
  is_substring sub s -> is_substring (rev sub) (rev s).
Proof.
  intros (l1 & l2 & ->). exists (rev l2), (rev l1).
  now rewrite !rev_app_distr, app_assoc.
Qed.

(** Leading blanks cannot hide a word that starts with a non-blank. *)
Lemma is_substring_lstrip (a : N) (sub s : pystr) :
  py_isspace a = false ->
  is_substring (a :: sub) (py_lstrip s) <-> is_substring (a :: sub) s.
Proof.
  intros Ha. induction s as [|c s IH]; simpl; [reflexivity|].
  destruct (py_isspace c) eqn:Hc; [|reflexivity].
  rewrite IH. split.
  - intros (l1 & l2 & ->). now exists (c :: l1), l2.
  - intros (l1 & l2 & H). destruct l1 as [|x l1]; simpl in H.
    + injection H as -> _. congruence.
    + injection H as _ ->. now exists l1, l2.
Qed.

Lemma is_substring_strip (a b : N) (sub bus s : pystr) :
  py_isspace a = false -> py_isspace b = false ->
  rev (a :: sub) = b :: bus ->
  is_substring (a :: sub) (py_strip s) <-> is_substring (a :: sub) s.
Proof.
  intros Ha Hb Hrev. unfold py_strip, py_rstrip.
  rewrite <- (is_substring_lstrip a sub s Ha).
  set (s' := py_lstrip s). split; intros H.
  - apply is_substring_rev in H. rewrite rev_involutive, Hrev in H.
    apply (proj1 (is_substring_lstrip b bus (rev s') Hb)) in H.
    rewrite <- Hrev in H.
    apply is_substring_rev in H. now rewrite !rev_involutive in H.
  - apply is_substring_rev in H. rewrite Hrev in H.
    apply (proj2 (is_substring_lstrip b bus (rev s') Hb)) in H.
    rewrite <- Hrev in H.
    apply is_substring_rev in H. now rewrite rev_involutive in H.
Qed.

Lemma triggered_iff (msg : pystr) :
  py_in keyword (py_strip msg) = true <-> is_substring keyword msg.
Proof.
  rewrite py_in_spec.
  now apply (is_substring_strip 21033 29575 [29575%N] [21033%N]).
Qed.

Lemma handle_message_ignored (w : World) (ev : MessageEvent) (st : state) :
  py_in keyword (py_strip (text ev)) = false ->
  handle_message w ev st
  = (emit (EvPrintCommand (py_strip (text ev))) st, Ok tt).
Proof. intros H. unfold handle_message, bind, call. now rewrite H. Qed.

Lemma handle_message_reply_fails (w : World) (ev : MessageEvent) (st : state) e :
  py_in keyword (py_strip (text ev)) = true ->
  line_reply w (reply_token ev) (TextSendMessage ack_text) = Raise e ->
  handle_message w ev st = (acked ev st, Raise e).
Proof.
  intros H Hr. unfold handle_message, bind, call. rewrite H; simpl.
  now rewrite Hr.
Qed.

Lemma handle_message_triggered (w : World) (ev : MessageEvent) (st : state) :
  py_in keyword (py_strip (text ev)) = true ->
  line_reply w (reply_token ev) (TextSendMessage ack_text) = Ok tt ->
  handle_message w ev st
  = try_except (deliver w (user_id ev)) (report_failure w (user_id ev))
               (acked ev st).
Proof.
  intros H Hr. unfold handle_message, bind, call. rewrite H; simpl.
  now rewrite Hr.
Qed.

(** ** The delivery (lines 128-151) *)

Lemma report_event_silent e : report_event e -> silent e.
Proof. now destruct e. Qed.

Lemma silent_after_ack uid e : silent e -> after_ack uid e.
Proof. now destruct e. Qed.

Lemma pushed_silent t : Forall silent t -> pushed t = [].
Proof.
  induction 1 as [|e t He _ IH]; [reflexivity|].
  destruct e; simpl in *; try contradiction; exact IH.
Qed.

Lemma replied_silent t : Forall silent t -> replied t = [].
Proof.
  induction 1 as [|e t He _ IH]; [reflexivity|].
  destruct e; simpl in *; try contradiction; exact IH.
Qed.

Lemma pushed_app t1 t2 : pushed (t1 ++ t2) = pushed t1 ++ pushed t2.
Proof. apply omap_app. Qed.

Lemma replied_app t1 t2 : replied (t1 ++ t2) = replied t1 ++ replied t2.
Proof. apply omap_app. Qed.

(** The report starts with the six quote requests, in order. *)
Lemma create_report_img_trace (w : World) (st : state) :
  exists t,
    trace (fst (create_report_img w st))
    = trace st ++ map quote_event symbols_info ++ t
    /\ Forall silent t.
Proof.
  unfold create_report_img, bind. rewrite aggregate_run.
  destruct (render_sim w w (map (row_of w) symbols_info)) with
    (st1 := mk_state (trace st ++ map quote_event symbols_info) (files st))
    (st2 := mk_state (trace st ++ map quote_event symbols_info) (files st))
    as (t & o & r & Ht & -> & _); try reflexivity.
  exists t. cbn [fst trace]. rewrite <- app_assoc. split; [reflexivity|].
  eapply Forall_impl; [exact Ht|]. apply report_event_silent.
Qed.

(** What an upload adds: the call, and a log line when it gave a url. *)
Lemma upload_report_run (w : World) (path : string) (st st' : state)
  (r : result string) :
  upload_report w path st = (st', r) ->
  files st' = files st
  /\ exists t, trace st' = trace st ++ EvUpload path :: t /\ Forall silent t.
Proof.
  unfold upload_report, upload, bind, call, lift, print, ret, emit; simpl.
  destruct (match files st !! path with
            | Some content => cloudinary_upload w content
            | None => Raise (FileNotFoundError path)
            end) as [d|e]; simpl.
  - destruct (dict_getitem d "secure_url") as [url|e]; intros [= <- <-]; simpl.
    + split; [reflexivity|]. eexists. rewrite <- app_assoc.
      split; [reflexivity|]. now repeat constructor.
    + split; [reflexivity|]. exists []. now split.
  - intros [= <- <-]. split; [reflexivity|]. exists []. now split.
Qed.

Lemma report_failure_run (w : World) (uid : string) (e : exn) (st : state) :
  report_failure w uid e st
  = (mk_state (trace st ++ [EvPrint (error_msg e);
                            EvPush uid (TextSendMessage (error_msg e))])
              (files st),
     line_push w uid (TextSendMessage (error_msg e))).
Proof.
  unfold report_failure, bind, print, call, emit; simpl.
  now rewrite <- app_assoc.
Qed.

Section Delivery.
Variable w : World.
Variable uid : string.

Lemma deliver_report_fails st st2 e :
  create_report_img w st = (st2, Raise e) ->
  try_except (deliver w uid) (report_failure w uid) st
  = report_failure w uid e st2.
Proof.
  intros H. unfold try_except, deliver, bind. now rewrite H.
Qed.

Lemma deliver_upload_fails st st1 st2 path e :
  create_report_img w st = (st1, Ok path) ->
  upload_report w path st1 = (st2, Raise e) ->
  try_except (deliver w uid) (report_failure w uid) st
  = report_failure w uid e st2.
Proof.
  intros H1 H2. unfold try_except, deliver, bind.
  now rewrite H1, H2.
Qed.

Lemma deliver_push_fails st st1 st2 path url e :
  create_report_img w st = (st1, Ok path) ->
  upload_report w path st1 = (st2, Ok url) ->
  line_push w uid (ImageSendMessage url url) = Raise e ->
  try_except (deliver w uid) (report_failure w uid) st
  = report_failure w uid e (emit (EvPush uid (ImageSendMessage url url)) st2).
Proof.
  intros H1 H2 H3. unfold try_except, deliver, bind, call.
  now rewrite H1, H2, H3.
Qed.

Lemma deliver_succeeds st st1 st2 path url :
  create_report_img w st = (st1, Ok path) ->
  upload_report w path st1 = (st2, Ok url) ->
  line_push w uid (ImageSendMessage url url) = Ok tt ->
  try_except (deliver w uid) (report_failure w uid) st
  = (emit (EvPush uid (ImageSendMessage url url)) st2, Ok tt).
Proof.
  intros H1 H2 H3. unfold try_except, deliver, bind, call.
  now rewrite H1, H2, H3.
Qed.

(** Whatever happens after the acknowledgement: the six quote requests
    come first, and the messages are pushes to [uid]. *)
Lemma deliver_trace st :
  exists t,
    trace (fst (try_except (deliver w uid) (report_failure w uid) st))
    = trace st ++ map quote_event symbols_info ++ t
    /\ Forall (after_ack uid) t.
Proof.
  destruct (create_report_img_trace w st) as (t1 & Ht1 & HP1).
  assert (HQ1 : Forall (after_ack uid) t1)
    by (eapply Forall_impl; [exact HP1|apply silent_after_ack]).
  destruct (create_report_img w st) as [st1 [path|e]] eqn:H1; simpl in Ht1.
  2:{ rewrite (deliver_report_fails _ _ _ H1), report_failure_run; simpl.
      rewrite Ht1, <- !app_assoc. eexists. split; [reflexivity|].
      apply Forall_app. split; [exact HQ1|]. now repeat constructor. }
  destruct (upload_report w path st1) as [st2 [url|e]] eqn:H2;
    destruct (upload_report_run _ _ _ _ _ H2) as (_ & t2 & Ht2 & HP2);
    assert (HQ2 : Forall (after_ack uid) t2)
      by (eapply Forall_impl; [exact HP2|apply silent_after_ack]).
  2:{ rewrite (deliver_upload_fails _ _ _ _ _ H1 H2), report_failure_run; simpl.
      rewrite Ht2, Ht1, <- !app_assoc. eexists. split; [reflexivity|].
      apply Forall_app. split; [exact HQ1|]. simpl.
      constructor; [exact I|]. apply Forall_app. split; [exact HQ2|].
      now repeat constructor. }
  destruct (line_push w uid (ImageSendMessage url url)) as [[]|e] eqn:H3.
  - rewrite (deliver_succeeds _ _ _ _ _ H1 H2 H3); simpl.
    rewrite Ht2, Ht1, <- !app_assoc. eexists. split; [reflexivity|].
    apply Forall_app. split; [exact HQ1|]. simpl.
    constructor; [exact I|]. apply Forall_app. split; [exact HQ2|].
    now repeat constructor.
  - rewrite (deliver_push_fails _ _ _ _ _ _ H1 H2 H3), report_failure_run; simpl.
    rewrite Ht2, Ht1, <- !app_assoc. eexists. split; [reflexivity|].
    apply Forall_app. split; [exact HQ1|]. simpl.
    constructor; [exact I|]. apply Forall_app. split; [exact HQ2|].
    now repeat constructor.
Qed.
End Delivery.

Lemma trace_acked ev st :
  trace (acked ev st)
  = trace st ++ [EvPrintCommand (py_strip (text ev));
                 EvReply (reply_token ev) (TextSendMessage ack_text)].
Proof. unfold acked, emit; simpl. now rewrite <- app_assoc. Qed.

(** The shape of every run of the handler. *)
Lemma handle_message_extends (w : World) (ev : MessageEvent) (st : state) :
  exists rest,
    trace (fst (handle_message w ev st))
    = trace st
      ++ EvPrintCommand (py_strip (text ev))
         :: (if py_in keyword (py_strip (text ev))
             then EvReply (reply_token ev) (TextSendMessage ack_text) :: rest
             else [])
    /\ Forall (after_ack (user_id ev)) rest
    /\ (line_reply w (reply_token ev) (TextSendMessage ack_text) = Ok tt ->
        exists rest', rest = map quote_event symbols_info ++ rest').
Proof.
  destruct (py_in keyword (py_strip (text ev))) eqn:Htrig.
  2:{ exists (map quote_event symbols_info).
      rewrite (handle_message_ignored w ev st Htrig); simpl.
      split; [reflexivity|].
      split; [now repeat constructor|]. intros _. exists []. reflexivity. }
  destruct (line_reply w (reply_token ev) (TextSendMessage ack_text))
    as [[]|e] eqn:Hreply.
  - rewrite (handle_message_triggered w ev st Htrig Hreply).
    destruct (deliver_trace w (user_id ev) (acked ev st)) as (t & Ht & HP).
    exists (map quote_event symbols_info ++ t). split.
    + rewrite Ht, trace_acked, <- !app_assoc. reflexivity.
    + split; [|now exists t]. apply Forall_app. split; [|exact HP].
      now repeat constructor.
  - exists []. rewrite (handle_message_reply_fails w ev st e Htrig Hreply); simpl.
    split; [apply trace_acked|].
    split; [apply Forall_nil_2|discriminate].
Qed.

Lemma handle_message_trace (w : World) (ev : MessageEvent) (st : state) :
  exists rest,
    run_events w ev st
    = EvPrintCommand (py_strip (text ev))
      :: (if py_in keyword (py_strip (text ev))
          then EvReply (reply_token ev) (TextSendMessage ack_text) :: rest
          else [])
    /\ Forall (after_ack (user_id ev)) rest
    /\ (line_reply w (reply_token ev) (TextSendMessage ack_text) = Ok tt ->
        exists rest', rest = map quote_event symbols_info ++ rest').
Proof.
  destruct (handle_message_extends w ev st) as (rest & Ht & HP & Hq).
  exists rest. split; [|now split]. now apply new_events_app.
Qed.

(** C7.  The handler runs the pipeline exactly when the text contains the
    keyword as a run of consecutive characters.  A text that contains it is
    acknowledged and, the acknowledgement made, the quote requests follow;
    a text that does not only leaves its log line: no reply, no push, no
    file changed.  "今日利率?" contains the keyword and "hello" does not. *)
Theorem trigger_is_keyword_substring (w : World) (ev : MessageEvent)
  (st : state) :
  (py_in keyword (py_strip (text ev)) = true <-> is_substring keyword (text ev))
  /\ (is_substring keyword (text ev) ->
      exists rest,
        run_events w ev st
        = EvPrintCommand (py_strip (text ev))
          :: EvReply (reply_token ev) (TextSendMessage ack_text) :: rest
        /\ (line_reply w (reply_token ev) (TextSendMessage ack_text) = Ok tt ->
            exists rest', rest = map quote_event symbols_info ++ rest'))
  /\ (~ is_substring keyword (text ev) ->
      handle_message w ev st
      = (emit (EvPrintCommand (py_strip (text ev))) st, Ok tt)
      /\ run_events w ev st = [EvPrintCommand (py_strip (text ev))]
      /\ replied (run_events w ev st) = []
      /\ pushed (run_events w ev st) = [])
  /\ is_substring keyword text_rate_today
  /\ ~ is_substring keyword text_hello.
Proof.
  split; [apply triggered_iff|]. split; [|split].
  - intros Hsub. apply triggered_iff in Hsub.
    destruct (handle_message_trace w ev st) as (rest & Hrun & _ & Hq).
    rewrite Hsub in Hrun. now exists rest.
  - intros Hsub.
    assert (Htrig : py_in keyword (py_strip (text ev)) = false).
    { destruct (py_in keyword (py_strip (text ev))) eqn:H; [|reflexivity].
      now apply triggered_iff in H. }
    assert (Hrun : run_events w ev st = [EvPrintCommand (py_strip (text ev))]).
    { unfold run_events. rewrite (handle_message_ignored w ev st Htrig).
      now apply new_events_app. }
    split; [now apply handle_message_ignored|]. rewrite Hrun. now repeat split.
  - split.
    + now apply py_in_spec.
    + intros H. now apply py_in_spec in H.
Qed.

Lemma trigger_is_keyword_substring_witness :
  (exists rest,
     run_events world_ok (demo_event text_rate_today) init_state
     = EvPrintCommand text_rate_today
       :: EvReply "nHuyWiB7yP5Zw52FIkcQobQuGDXCTA" (TextSendMessage ack_text)
       :: EvHttpGet (trades_url "fUSD") :: rest)
  /\ run_events world_ok (demo_event text_hello) init_state
     = [EvPrintCommand text_hello].
Proof.
  destruct (trigger_is_keyword_substring world_ok (demo_event text_rate_today)
              init_state) as (_ & Hyes & _ & Hin & _).
  destruct (trigger_is_keyword_substring world_ok (demo_event text_hello)
              init_state) as (_ & _ & Hno & _ & Hout).
  split.
  - destruct (Hyes Hin) as (rest & Hrun & Hq).
    destruct (Hq eq_refl) as (rest' & ->).
    now exists (map quote_event (tl symbols_info) ++ rest').
  - now destruct (Hno Hout) as (_ & Hrun & _).
Defined.




(** C4.  When making the report or uploading it raises, the handler logs
    the failure and pushes one text message, the failure text, to the
    sender's user id; this push is the only one of the run, no image message
    among them; nothing follows the failure but the log line and that
    push, and the handler ends with what the push returns. *)
Theorem failure_reported_once (w : World) (ev : MessageEvent)
  (st st2 : state) (e : exn) :
  py_in keyword (py_strip (text ev)) = true ->
  line_reply w (reply_token ev) (TextSendMessage ack_text) = Ok tt ->
  (create_report_img w (acked ev st) = (st2, Raise e)
   \/ exists st1 path,
        create_report_img w (acked ev st) = (st1, Ok path)
        /\ upload_report w path st1 = (st2, Raise e)) ->
  handle_message w ev st
  = (mk_state (trace st2 ++ [EvPrint (error_msg e);
                             EvPush (user_id ev) (TextSendMessage (error_msg e))])
              (files st2),
     line_push w (user_id ev) (TextSendMessage (error_msg e)))
  /\ pushed (run_events w ev st)
     = [(user_id ev, TextSendMessage (error_msg e))]
  /\ replied (run_events w ev st)
     = [(reply_token ev, TextSendMessage ack_text)]
  /\ exists t,
       trace st2 = trace (acked ev st) ++ t /\ Forall silent t.
Proof.
  intros Htrig Hreply Hfail.
  assert (Hrun : handle_message w ev st
                 = report_failure w (user_id ev) e st2).
  { rewrite (handle_message_triggered w ev st Htrig Hreply).
    destruct Hfail as [H1 | (st1 & path & H1 & H2)].
    - now apply deliver_report_fails.
    - now apply (deliver_upload_fails w (user_id ev) _ st1 st2 path). }
  assert (Hsilent : exists t, trace st2 = trace (acked ev st) ++ t
                              /\ Forall silent t).
  { destruct Hfail as [H1 | (st1 & path & H1 & H2)].
    - destruct (create_report_img_trace w (acked ev st)) as (t & Ht & HP).
      rewrite H1 in Ht; cbn [fst] in Ht. eexists. split; [exact Ht|].
      apply Forall_app. split; [|exact HP]. now repeat constructor.
    - destruct (create_report_img_trace w (acked ev st)) as (t & Ht & HP).
      rewrite H1 in Ht; cbn [fst] in Ht.
      destruct (upload_report_run _ _ _ _ _ H2) as (_ & t2 & Ht2 & HP2).
      rewrite Ht2, Ht, <- !app_assoc. eexists. split; [reflexivity|].
      apply Forall_app. split; [now repeat constructor|].
      apply Forall_app. split; [exact HP|]. now constructor. }
  rewrite report_failure_run in Hrun. split; [exact Hrun|].
  destruct Hsilent as (t & Ht & HP).
  assert (Hev : run_events w ev st
                = [EvPrintCommand (py_strip (text ev));
                   EvReply (reply_token ev) (TextSendMessage ack_text)]
                  ++ t ++ [EvPrint (error_msg e);
                           EvPush (user_id ev) (TextSendMessage (error_msg e))]).
  { unfold run_events. rewrite Hrun. apply new_events_app; simpl.
    now rewrite Ht, trace_acked, <- !app_assoc. }
  rewrite Hev, !pushed_app, !replied_app.
  rewrite (pushed_silent t HP), (replied_silent t HP).
  split; [reflexivity|]. split; [reflexivity|]. now exists t.
Qed.

(** C10.  When the report is made and uploaded but pushing the image
    raises, the same handler catches it: the failure text, which holds the
    exception's string, is pushed to the sender's user id after the failed
    image push, and the upload has already happened. *)
Theorem image_push_failure_reported (w : World) (ev : MessageEvent)
  (st st1 st2 : state) (path url : string) (e : exn) :
  py_in keyword (py_strip (text ev)) = true ->
  line_reply w (reply_token ev) (TextSendMessage ack_text) = Ok tt ->
  create_report_img w (acked ev st) = (st1, Ok path) ->
  upload_report w path st1 = (st2, Ok url) ->
  line_push w (user_id ev) (ImageSendMessage url url) = Raise e ->
  handle_message w ev st
  = (mk_state (trace st2 ++ [EvPush (user_id ev) (ImageSendMessage url url);
                             EvPrint (error_msg e);
                             EvPush (user_id ev) (TextSendMessage (error_msg e))])
              (files st2),
     line_push w (user_id ev) (TextSendMessage (error_msg e)))
  /\ pushed (run_events w ev st)
     = [(user_id ev, ImageSendMessage url url);
        (user_id ev, TextSendMessage (error_msg e))]
  /\ error_msg e = "❌ 報表處理失敗: " +:+ exn_str e
  /\ In (EvUpload report_path) (trace st2).
Proof.
  intros Htrig Hreply H1 H2 H3.
  assert (Hrun : handle_message w ev st
                 = report_failure w (user_id ev) e
                     (emit (EvPush (user_id ev) (ImageSendMessage url url)) st2)).
  { rewrite (handle_message_triggered w ev st Htrig Hreply).
    now apply (deliver_push_fails w (user_id ev) _ st1 st2 path). }
  rewrite report_failure_run in Hrun. simpl in Hrun.
  rewrite <- app_assoc in Hrun. simpl in Hrun.
  split; [exact Hrun|].
  destruct (create_report_img_trace w (acked ev st)) as (t & Ht & HP).
  rewrite H1 in Ht; cbn [fst] in Ht.
  destruct (upload_report_run _ _ _ _ _ H2) as (_ & t2 & Ht2 & HP2).
  assert (Hpath : path = report_path).
  { destruct (create_report_img_sim w w (agree_refl w) (acked ev st) (acked ev st))
      as (t' & o & r & _ & Hc & _ & Hok).
    rewrite H1 in Hc. injection Hc as _ <-. now destruct (Hok path eq_refl). }
  subst path. split; [|split; [reflexivity|]].
  - assert (Hev : run_events w ev st
                  = [EvPrintCommand (py_strip (text ev));
                     EvReply (reply_token ev) (TextSendMessage ack_text)]
                    ++ (map quote_event symbols_info ++ t)
                    ++ [EvUpload report_path] ++ t2
                    ++ [EvPush (user_id ev) (ImageSendMessage url url);
                        EvPrint (error_msg e);
                        EvPush (user_id ev) (TextSendMessage (error_msg e))]).
    { unfold run_events. rewrite Hrun. apply new_events_app. cbn [fst trace].
      rewrite Ht2, Ht, trace_acked, <- !app_assoc. reflexivity. }
    rewrite Hev, !pushed_app.
    rewrite (pushed_silent t2 HP2), (pushed_silent t HP). reflexivity.
  - rewrite Ht2. apply in_or_app. right. now left.
Qed.

Lemma failure_reported_once_witness :
  py_in keyword (py_strip (text (demo_event text_rate_today))) = true
  /\ pushed (run_events world_upload_fails (demo_event text_rate_today) init_state)
     = [("U4af4980629",
         TextSendMessage (error_msg (mk_exn "Error" "Invalid cloud_name")))]
  /\ replied (run_events world_upload_fails (demo_event text_rate_today) init_state)
     = [("nHuyWiB7yP5Zw52FIkcQobQuGDXCTA", TextSendMessage ack_text)].
Proof.
  split; [reflexivity|].
  edestruct (failure_reported_once world_upload_fails
               (demo_event text_rate_today) init_state)
    as (_ & Hp & Hr & _).
  - reflexivity.
  - reflexivity.
  - right. eexists _, _. split; vm_compute; reflexivity.
  - split; [exact Hp|exact Hr].
Defined.

Lemma image_push_failure_reported_witness :
  line_push world_image_push_fails "U4af4980629"
    (ImageSendMessage demo_url demo_url)
  = Raise (mk_exn "LineBotApiError" "status_code=429")
  /\ pushed (run_events world_image_push_fails (demo_event text_rate_today)
               init_state)
     = [("U4af4980629", ImageSendMessage demo_url demo_url);
        ("U4af4980629",
         TextSendMessage
           (error_msg (mk_exn "LineBotApiError" "status_code=429")))].
Proof.
  split; [reflexivity|].
  edestruct (image_push_failure_reported world_image_push_fails
               (demo_event text_rate_today) init_state)
    as (_ & Hp & _).
  - reflexivity.
  - reflexivity.
  - vm_compute; reflexivity.
  - vm_compute; reflexivity.
  - reflexivity.
  - exact Hp.
Defined.

(** ** The webhook (lines 108-116) *)

Lemma after_ack_not_response uid e : after_ack uid e -> not_response e.
Proof. now destruct e. Qed.

Lemma handle_message_emits (w : World) (ev : MessageEvent) :
  emits not_response (handle_message w ev).
Proof.
  intros st. destruct (handle_message_extends w ev st) as (rest & Ht & HP & _).
  eexists. split; [exact Ht|].
  constructor; [exact I|].
  destruct (py_in keyword (py_strip (text ev))); [|constructor].
  constructor; [exact I|].
  eapply Forall_impl; [exact HP|]. apply after_ack_not_response.
Qed.

Lemma dispatch_emits (w : World) (events : list webhook_event) :
  emits not_response (dispatch w events).
Proof.
  induction events as [|[ev|] events IH]; simpl.
  - apply emits_ret.
  - apply emits_bind; [apply handle_message_emits|]. intros _. exact IH.
  - exact IH.
Qed.

Lemma callback_emits (w : World) (signature body : string) :
  emits not_response (callback w signature body).
Proof.
  intros st. unfold callback, bind, try_except_class, handler_handle, raise, ret.
  destruct (signature_valid w body signature).
  - destruct (dispatch_emits w (parse_events w body) st) as (t & Ht & HP).
    exists t. split; [|exact HP].
    destruct (dispatch w (parse_events w body) st) as [st' [[]|e]];
      simpl in *; [exact Ht|].
    now destruct (exn_class e =? "InvalidSignatureError")%string.
  - exists []. simpl. split; [now rewrite app_nil_r|constructor].
Qed.

(** A text event at the head of a validly signed body is handled inside
    the view function. *)
Lemma callback_runs_handler (w : World) (signature body : string)
  (ev : MessageEvent) (events : list webhook_event) (st : state) :
  signature_valid w body signature = true ->
  parse_events w body = TextMessageEvent ev :: events ->
  exists t,
    trace (fst (callback w signature body st))
    = trace (fst (handle_message w ev st)) ++ t.
Proof.
  intros Hsig Hparse.
  unfold callback, bind, try_except_class, handler_handle, raise, ret.
  rewrite Hsig, Hparse; simpl. unfold bind.
  destruct (handle_message w ev st) as [st1 [[]|e]]; simpl.
  - destruct (dispatch_emits w events st1) as (t & Ht & _).
    exists t.
    destruct (dispatch w events st1) as [st' [[]|e]]; simpl in *; [exact Ht|].
    now destruct (exn_class e =? "InvalidSignatureError")%string.
  - exists []. rewrite app_nil_r.
    now destruct (exn_class e =? "InvalidSignatureError")%string.
Qed.

(** C5, as the claim has it, fails: in the demonstration world the quote
    requests, the save, the upload and the push all precede the HTTP
    response. *)
Lemma webhook_answered_after_pipeline :
  ~ answered_before_pipeline (trace (serve world_ok "signature" "body" init_state)).
Proof.
  intros H.
  destruct (H [EvPrintCommand text_rate_today;
               EvReply "nHuyWiB7yP5Zw52FIkcQobQuGDXCTA" (TextSendMessage ack_text)]
              (EvHttpGet (trades_url "fUSD"))
              (skipn 3 (trace (serve world_ok "signature" "body" init_state))))
    as (status & Hin).
  - vm_compute. reflexivity.
  - reflexivity.
  - destruct Hin as [Hin|[Hin|[]]]; discriminate.
Qed.

(** C5, amended.  The handler runs inside the view function: the HTTP
    response is the last event of a request, after everything [callback]
    did; and for a validly signed body that starts with a text containing
    the keyword, acknowledged with success, what precedes the response
    starts with the log line, the acknowledgement and the six quote
    requests. *)
Theorem pipeline_runs_inside_callback (w : World) (signature body : string)
  (st : state) :
  exists t status,
    trace (serve w signature body st) = trace st ++ t ++ [EvHttpResponse status]
    /\ Forall not_response t
    /\ t = new_events st (fst (callback w signature body st))
    /\ (forall ev events,
          signature_valid w body signature = true ->
          parse_events w body = TextMessageEvent ev :: events ->
          is_substring keyword (text ev) ->
          line_reply w (reply_token ev) (TextSendMessage ack_text) = Ok tt ->
          exists rest,
            t = EvPrintCommand (py_strip (text ev))
                :: EvReply (reply_token ev) (TextSendMessage ack_text)
                :: map quote_event symbols_info ++ rest).
Proof.
  destruct (callback_emits w signature body st) as (t & Ht & HP).
  exists t, (http_status (snd (callback w signature body st))).
  split; [|split; [exact HP|split]].
  - unfold serve. destruct (callback w signature body st) as [st' r].
    unfold emit; simpl in *. now rewrite Ht, app_assoc.
  - symmetry. now apply new_events_app.
  - intros ev events Hsig Hparse Hsub Hreply.
    destruct (callback_runs_handler w signature body ev events st Hsig Hparse)
      as (t' & Ht').
    destruct (handle_message_extends w ev st) as (rest & Hh & _ & Hq).
    apply triggered_iff in Hsub. rewrite Hsub in Hh.
    destruct (Hq Hreply) as (rest' & ->).
    rewrite Hh, Ht in Ht'. rewrite <- app_assoc in Ht'.
    apply app_inv_head in Ht'. subst t.
    exists (rest' ++ t'). now rewrite <- !app_comm_cons, <- app_assoc.
Qed.

(** * Further properties *)

(** ** Quotes that cannot be read *)

(** A failed request, an empty list, a JSON object, [null], or a first
    record with fewer than four fields: the instrument's row is the "N/A"
    row, and the loop goes on. *)
Theorem unreadable_quote_gives_na (w : World) (sym : string) (i : info) :
  (exists e, requests_get_json w (trades_url sym) = Raise e)
  \/ (exists resp, requests_get_json w (trades_url sym) = Ok resp
                   /\ no_rate_field resp) ->
  daily_rate w sym = None
  /\ row_of w (sym, i) = mk_row (name i) "N/A" "N/A" (icon i).
Proof.
  intros H.
  assert (Hnone : daily_rate w sym = None).
  { unfold daily_rate, fetch_rate, bind, call, lift, ret; simpl.
    destruct H as [[e ->] | (resp & -> & Hresp)]; [reflexivity|].
    destruct Hresp as [-> | [-> | [[d ->] | (record & more & -> & Hlen)]]];
      try reflexivity.
    destruct record as [|a [|b [|c [|d record]]]]; simpl in *;
      try reflexivity; lia. }
  split; [exact Hnone|]. unfold row_of; simpl. now rewrite Hnone.
Qed.

Lemma unreadable_quote_gives_na_witness :
  no_rate_field (JList [JList [JInt 1; JInt 2; JFloat 0.5%float]])
  /\ daily_rate world_empty_quotes "fEUR" = None
  /\ row_of world_quotes_down ("fEUR", mk_info "EUR" "eur.png")
     = mk_row "EUR" "N/A" "N/A" "eur.png".
Proof.
  split.
  { right; right; right. eexists _, _. split; [reflexivity|]. simpl. lia. }
  split.
  - apply (unreadable_quote_gives_na world_empty_quotes "fEUR"
             (mk_info "EUR" "eur.png")).
    right. exists (JList []). split; [reflexivity|]. right; left; reflexivity.
  - apply (unreadable_quote_gives_na world_quotes_down "fEUR"
             (mk_info "EUR" "eur.png")).
    left. eexists. reflexivity.
Defined.

(** ** Icons and the figure *)

Lemma get_icon_run (w : World) (name url : string) (size : nat * nat)
  (st : state) :
  exists log img,
    get_icon w name url size st
    = (mk_state (trace st ++ EvHttpGet url :: log) (files st), Ok img)
    /\ img_size img = size
    /\ (log = []
        \/ exists e, log = [EvPrint (icon_failure_line name e)]
                     /\ img = Image_new size placeholder_color).
Proof.
  unfold get_icon, icon_failure_line, try_except, print, bind, call, lift,
    ret, emit; simpl.
  destruct (requests_get_content w url) as [content|e]; simpl.
  2:{ eexists _, _. rewrite <- app_assoc. split; [reflexivity|].
      split; [reflexivity|]. right. now exists e. }
  destruct (image_open w content) as [src|e]; simpl.
  2:{ eexists _, _. rewrite <- app_assoc. split; [reflexivity|].
      split; [reflexivity|]. right. now exists e. }
  destruct (lanczos w src size) as [data|e]; simpl.
  2:{ eexists _, _. rewrite <- app_assoc. split; [reflexivity|].
      split; [reflexivity|]. right. now exists e. }
  exists [], (mk_image size data). split; [reflexivity|].
  split; [reflexivity|]. now left.
Qed.

(** X: every call of [get_icon] makes one request and leaves the files
    alone; when it falls back to the placeholder it prints one line that
    names the instrument and the exception, and otherwise it prints
    nothing. *)
Theorem get_icon_one_request (w : World) (name url : string)
  (size : nat * nat) (st : state) :
  (exists img,
     get_icon w name url size st = (emit (EvHttpGet url) st, Ok img))
  \/ (exists e,
        get_icon w name url size st
        = (emit (EvPrint (icon_failure_line name e)) (emit (EvHttpGet url) st),
           Ok (Image_new size placeholder_color))).
Proof.
  destruct (get_icon_run w name url size st)
    as (log & img & Hrun & _ & [-> | (e & -> & ->)]).
  - left. exists img. exact Hrun.
  - right. exists e. rewrite Hrun. unfold emit; simpl.
    now rewrite <- app_assoc.
Qed.

Lemma http_gets_app t1 t2 : http_gets (t1 ++ t2) = http_gets t1 ++ http_gets t2.
Proof. apply omap_app. Qed.

Lemma http_gets_quotes (items : list (string * info)) :
  http_gets (map quote_event items)
  = map (fun item => trades_url (fst item)) items.
Proof.
  induction items as [|item items IH]; [reflexivity|].
  simpl. now rewrite <- IH.
Qed.

Lemma icon_loop_run (w : World) (rows : list row) :
  forall i artists st,
  exists t imgs,
    icon_loop w i rows artists st
    = (mk_state (trace st ++ t) (files st), Ok (artists ++ place_icons i imgs))
    /\ length imgs = length rows
    /\ Forall (fun im => img_size im = icon_default_size) imgs
    /\ http_gets t = map row_icon rows
    /\ Forall report_event t.
Proof.
  induction rows as [|r rows IH]; intros i artists st; simpl.
  - exists [], []. unfold ret. rewrite !app_nil_r. destruct st.
    repeat split; constructor.
  - unfold bind.
    destruct (get_icon_run w (Currency r) (row_icon r) icon_default_size st)
      as (log & img & -> & Hsize & Hlog).
    destruct (IH (S i)
                 (artists ++ [mk_artist img icon_zoom (icon_xy i)])
                 (mk_state (trace st ++ EvHttpGet (row_icon r) :: log) (files st)))
      as (t & imgs & -> & Hlen & Hsizes & Hgets & Ht).
    exists ((EvHttpGet (row_icon r) :: log) ++ t), (img :: imgs).
    cbn [trace files]. rewrite <- !app_assoc. split; [reflexivity|].
    split; [simpl; now rewrite Hlen|]. split; [now constructor|].
    assert (Hl : http_gets log = [] /\ Forall report_event log).
    { destruct Hlog as [-> | (e & -> & _)]; split; now repeat constructor. }
    destruct Hl as [Hl1 Hl2]. split.
    + rewrite http_gets_app.
      change (http_gets (EvHttpGet (row_icon r) :: log))
        with (row_icon r :: http_gets log).
      now rewrite Hl1, Hgets.
    + apply Forall_app. split; [|exact Ht]. constructor; [exact I|exact Hl2].
Qed.

(** The three ways [render] can end. *)
Lemma render_run (w : World) (rows : list row) (st : state) :
  (exists e, mpl_table w (cell_text rows) = Raise e
             /\ render w rows st = (st, Raise e))
  \/ exists t imgs,
       mpl_table w (cell_text rows) = Ok tt
       /\ length imgs = length rows
       /\ Forall (fun im => img_size im = icon_default_size) imgs
       /\ http_gets t = map row_icon rows
       /\ Forall report_event t
       /\ ((exists png,
              mpl_savefig w (mk_figure (cell_text rows) (place_icons 0 imgs))
              = Ok png
              /\ render w rows st
                 = (mk_state (trace st ++ t ++ [EvSaveFig report_path])
                             (<[report_path := png]> (files st)),
                    Ok report_path))
           \/ (exists e,
                 mpl_savefig w (mk_figure (cell_text rows) (place_icons 0 imgs))
                 = Raise e
                 /\ render w rows st
                    = (mk_state (trace st ++ t ++ [EvSaveFig report_path])
                                (files st),
                       Raise e))).
Proof.
  unfold render, bind, lift.
  destruct (mpl_table w (cell_text rows)) as [[]|e].
  2:{ left. now exists e. }
  right.
  destruct (icon_loop_run w rows 0 [] st)
    as (t & imgs & -> & Hlen & Hsizes & Hgets & Ht).
  exists t, imgs. split; [reflexivity|]. do 4 (split; [assumption|]).
  unfold savefig, bind, call, ret, write_file, emit; simpl.
  destruct (mpl_savefig w (mk_figure (cell_text rows) (place_icons 0 imgs)))
    as [png|e].
  - left. exists png. now rewrite <- app_assoc.
  - right. exists e. now rewrite <- app_assoc.
Qed.

Lemma create_report_img_unfold (w : World) (st : state) :
  create_report_img w st
  = render w (map (row_of w) symbols_info)
      (mk_state (trace st ++ map quote_event symbols_info) (files st)).
Proof. unfold create_report_img, bind. now rewrite aggregate_run. Qed.

Lemma rows_icons (w : World) :
  map row_icon (map (row_of w) symbols_info)
  = map (fun item => icon (snd item)) symbols_info.
Proof. rewrite map_map. apply map_ext. intros item. apply row_of_icon. Qed.

(** X: a report that is returned has been saved from a figure whose cells
    are the six rows and whose icons are six images of 120 x 120, the
    [i]-th placed at (0.28, 0.745 - i * 0.117); the path returned is
    "line_report.png" and the file holds the bytes [savefig] produced. *)
Theorem saved_figure_has_six_icons (w : World) (st st1 : state)
  (path : string) :
  create_report_img w st = (st1, Ok path) ->
  path = "line_report.png"
  /\ exists imgs png,
       length imgs = 6
       /\ Forall (fun im => img_size im = (120, 120)) imgs
       /\ mpl_savefig w (mk_figure (cell_text (map (row_of w) symbols_info))
                                   (place_icons 0 imgs)) = Ok png
       /\ files st1 !! path = Some png.
Proof.
  rewrite create_report_img_unfold. intros Hrun.
  destruct (render_run w (map (row_of w) symbols_info)
              (mk_state (trace st ++ map quote_event symbols_info) (files st)))
    as [(e & _ & H) | (t & imgs & _ & Hlen & Hsizes & _ & _ & [(png & Hsave & H) | (e & _ & H)])];
    rewrite H in Hrun; try discriminate.
  injection Hrun as <- <-. split; [reflexivity|].
  exists imgs, png. rewrite length_map in Hlen.
  split; [exact Hlen|]. split; [exact Hsizes|]. split; [exact Hsave|].
  simpl. apply lookup_insert_eq.
Qed.

Lemma saved_figure_has_six_icons_witness :
  exists imgs png,
    length imgs = 6
    /\ Forall (fun im => img_size im = (120, 120)) imgs
    /\ mpl_savefig world_quotes_down
         (mk_figure (cell_text (map (row_of world_quotes_down) symbols_info))
                    (place_icons 0 imgs)) = Ok png
    /\ files (fst (create_report_img world_quotes_down state_after_a_run))
         !! "line_report.png" = Some png.
Proof.
  apply (saved_figure_has_six_icons world_quotes_down state_after_a_run
           (fst (create_report_img world_quotes_down state_after_a_run))
           "line_report.png").
  vm_compute. reflexivity.
Defined.

(** X: the upload that follows a returned report sends the bytes that
    [savefig] has just written: the file is there, whatever the file store
    held before. *)
Theorem upload_sends_saved_report (w : World) (st st1 : state)
  (path : string) :
  create_report_img w st = (st1, Ok path) ->
  exists fig png,
    mpl_savefig w fig = Ok png
    /\ upload w path st1 = (emit (EvUpload path) st1, cloudinary_upload w png).
Proof.
  rewrite create_report_img_unfold. intros Hrun.
  destruct (render_run w (map (row_of w) symbols_info)
              (mk_state (trace st ++ map quote_event symbols_info) (files st)))
    as [(e & _ & H) | (t & imgs & _ & _ & _ & _ & _ & [(png & Hsave & H) | (e & _ & H)])];
    rewrite H in Hrun; try discriminate.
  injection Hrun as <- <-. eexists _, png. split; [exact Hsave|].
  unfold upload, call; simpl. now rewrite lookup_insert_eq.
Qed.

Lemma upload_sends_saved_report_witness :
  exists fig png,
    mpl_savefig world_ok fig = Ok png
    /\ upload world_ok "line_report.png"
         (fst (create_report_img world_ok state_after_a_run))
       = (emit (EvUpload "line_report.png")
               (fst (create_report_img world_ok state_after_a_run)),
          cloudinary_upload world_ok png).
Proof.
  apply (upload_sends_saved_report world_ok state_after_a_run).
  vm_compute. reflexivity.
Defined.

(** X: the report is made whatever the quote source and the icon hosts
    do: when matplotlib lays out the table and saves the figure, the
    function returns the path. *)
Theorem report_survives_upstream_failures (w : World) (st : state) :
  (forall cells, mpl_table w cells = Ok tt) ->
  (forall fig, exists png, mpl_savefig w fig = Ok png) ->
  exists st', create_report_img w st = (st', Ok "line_report.png").
Proof.
  intros Htab Hsave. rewrite create_report_img_unfold.
  destruct (render_run w (map (row_of w) symbols_info)
              (mk_state (trace st ++ map quote_event symbols_info) (files st)))
    as [(e & He & _) | (t & imgs & _ & _ & _ & _ & _ & [(png & _ & H) | (e & He & _)])].
  - rewrite Htab in He. discriminate.
  - rewrite H. now eexists.
  - destruct (Hsave (mk_figure (cell_text (map (row_of w) symbols_info))
                               (place_icons 0 imgs))) as [png Hpng].
    rewrite Hpng in He. discriminate.
Qed.

Lemma report_survives_upstream_failures_witness :
  (forall item, In item symbols_info ->
     daily_rate world_quotes_down (fst item) = None)
  /\ exists st',
       create_report_img world_quotes_down init_state
       = (st', Ok "line_report.png").
Proof.
  split.
  - intros item Hin. simpl in Hin.
    repeat (destruct Hin as [<-|Hin]; [reflexivity|]). destruct Hin.
  - apply (report_survives_upstream_failures world_quotes_down init_state).
    + reflexivity.
    + intros fig. eexists. reflexivity.
Defined.

(** X: when the report raises, the exception is matplotlib's, from the
    table or from [savefig], and no file has been written or changed. *)
Theorem report_failure_keeps_files (w : World) (st st' : state) (e : exn) :
  create_report_img w st = (st', Raise e) ->
  files st' = files st
  /\ (mpl_table w (cell_text (map (row_of w) symbols_info)) = Raise e
      \/ exists imgs,
           mpl_savefig w (mk_figure (cell_text (map (row_of w) symbols_info))
                                    (place_icons 0 imgs)) = Raise e).
Proof.
  rewrite create_report_img_unfold. intros Hrun.
  destruct (render_run w (map (row_of w) symbols_info)
              (mk_state (trace st ++ map quote_event symbols_info) (files st)))
    as [(e' & He & H) | (t & imgs & _ & _ & _ & _ & _ & [(png & _ & H) | (e' & He & H)])];
    rewrite H in Hrun; try discriminate; injection Hrun as <- <-.
  - split; [reflexivity|]. now left.
  - split; [reflexivity|]. right. now exists imgs.
Qed.

Lemma report_failure_keeps_files_witness :
  files (fst (create_report_img world_table_fails state_after_a_run))
  = files state_after_a_run.
Proof.
  apply (report_failure_keeps_files world_table_fails state_after_a_run
           (fst (create_report_img world_table_fails state_after_a_run))
           (mk_exn "RuntimeError" "main thread is not in main loop")).
  vm_compute. reflexivity.
Defined.

(** X: one run of the report requests each of the six trade urls once, in
    the order of [symbols_info], and then, when the table could be laid out,
    each of the six icon urls once, in the same order; when it could not, no
    icon is requested. *)
Theorem report_requests (w : World) (st : state) :
  http_gets (new_events st (fst (create_report_img w st)))
  = map (fun item => trades_url (fst item)) symbols_info
    ++ match mpl_table w (cell_text (map (row_of w) symbols_info)) with
       | Ok _ => map (fun item => icon (snd item)) symbols_info
       | Raise _ => []
       end.
Proof.
  rewrite create_report_img_unfold.
  destruct (render_run w (map (row_of w) symbols_info)
              (mk_state (trace st ++ map quote_event symbols_info) (files st)))
    as [(e & He & H) | (t & imgs & Htab & _ & _ & Hgets & _ & Hend)].
  - rewrite H, He. cbn [fst].
    erewrite new_events_app; [|reflexivity].
    now rewrite http_gets_quotes, app_nil_r.
  - assert (Htr : trace (fst (render w (map (row_of w) symbols_info)
                     (mk_state (trace st ++ map quote_event symbols_info) (files st))))
                  = trace st ++ map quote_event symbols_info ++ t
                    ++ [EvSaveFig report_path]).
    { destruct Hend as [(png & _ & ->) | (e & _ & ->)]; cbn [fst trace];
        now rewrite <- !app_assoc. }
    rewrite (new_events_app _ _ _ Htr), !http_gets_app, http_gets_quotes, Hgets.
    rewrite rows_icons, Htab. cbn [http_gets omap]. now rewrite app_nil_r.
Qed.

(** ** The outcomes of a run *)

Lemma upload_report_ok (w : World) (path url : string) (st1 st2 : state) :
  upload_report w path st1 = (st2, Ok url) ->
  exists content d,
    files st1 !! path = Some content
    /\ cloudinary_upload w content = Ok d
    /\ d !! "secure_url" = Some url.
Proof.
  unfold upload_report, upload, bind, call, lift, dict_getitem.
  destruct (files st1 !! path) as [content|] eqn:Hfile; [|discriminate].
  destruct (cloudinary_upload w content) as [d|e] eqn:Hup; [|discriminate].
  destruct (d !! "secure_url") as [v|] eqn:Hv; [|discriminate].
  unfold print, bind, call, ret. intros [= _ <-]. now exists content, d.
Qed.

Lemma upload_report_no_url (w : World) (path : string) (st1 : state)
  (content : bytes) (d : gmap string string) :
  files st1 !! path = Some content ->
  cloudinary_upload w content = Ok d ->
  d !! "secure_url" = None ->
  upload_report w path st1
  = (emit (EvUpload path) st1, Raise (KeyError "secure_url")).
Proof.
  intros Hfile Hup Hkey.
  unfold upload_report, upload, bind, call, lift, dict_getitem.
  now rewrite Hfile, Hup, Hkey.
Qed.

Lemma create_report_img_files (w : World) (st st1 : state) (r : result string) :
  create_report_img w st = (st1, r) ->
  files st1 = files st
  \/ exists png, files st1 = <[report_path := png]> (files st).
Proof.
  intros H.
  destruct (create_report_img_sim w w (agree_refl w) st st)
    as (t & o & r' & _ & Hc & _).
  rewrite H in Hc. injection Hc as -> _. destruct o as [png|]; simpl.
  - right. now exists png.
  - now left.
Qed.

(** The three ways the [try] statement of the handler can end. *)
Lemma deliver_outcome (w : World) (uid : string) (st : state) :
  exists st2,
    (files st2 = files st
     \/ exists png, files st2 = <[report_path := png]> (files st))
    /\ (exists t, trace st2 = trace st ++ t /\ Forall silent t)
    /\ ((exists url,
           line_push w uid (ImageSendMessage url url) = Ok tt
           /\ try_except (deliver w uid) (report_failure w uid) st
              = (emit (EvPush uid (ImageSendMessage url url)) st2, Ok tt))
        \/ (exists e,
              try_except (deliver w uid) (report_failure w uid) st
              = report_failure w uid e st2)
        \/ (exists url e,
              line_push w uid (ImageSendMessage url url) = Raise e
              /\ try_except (deliver w uid) (report_failure w uid) st
                 = report_failure w uid e
                     (emit (EvPush uid (ImageSendMessage url url)) st2))).
Proof.
  destruct (create_report_img_trace w st) as (t1 & Ht1 & HP1).
  destruct (create_report_img w st) as [st1 [path|e]] eqn:H1;
    pose proof (create_report_img_files _ _ _ _ H1) as Hf1; cbn [fst] in Ht1.
  2:{ exists st1. split; [exact Hf1|]. split.
      - eexists. split; [exact Ht1|].
        apply Forall_app. split; [now repeat constructor|exact HP1].
      - right; left. exists e. now apply deliver_report_fails. }
  destruct (upload_report w path st1) as [st2 [url|e]] eqn:H2;
    destruct (upload_report_run _ _ _ _ _ H2) as (Hf2 & t2 & Ht2 & HP2);
    exists st2; (split; [now rewrite Hf2|]);
    (split; [eexists; split;
               [rewrite Ht2, Ht1, <- !app_assoc; reflexivity|];
             apply Forall_app; split; [now repeat constructor|];
             apply Forall_app; split; [exact HP1|now constructor]|]).
  2:{ right; left. exists e. now apply (deliver_upload_fails w uid st st1 st2 path). }
  destruct (line_push w uid (ImageSendMessage url url)) as [[]|e] eqn:H3.
  - left. exists url. split; [exact H3|].
    now apply (deliver_succeeds w uid st st1 st2 path).
  - right; right. exists url, e. split; [exact H3|].
    now apply (deliver_push_fails w uid st st1 st2 path).
Qed.

(** X: when everything succeeds the run is one reply and one push: the
    acknowledgement with the reply token, then an image message to the
    sender whose two urls are both the 'secure_url' of Cloudinary's answer
    to the saved file; the handler returns. *)
Theorem report_delivered (w : World) (ev : MessageEvent)
  (st st1 st2 : state) (path url : string) :
  is_substring keyword (text ev) ->
  line_reply w (reply_token ev) (TextSendMessage ack_text) = Ok tt ->
  create_report_img w (acked ev st) = (st1, Ok path) ->
  upload_report w path st1 = (st2, Ok url) ->
  line_push w (user_id ev) (ImageSendMessage url url) = Ok tt ->
  snd (handle_message w ev st) = Ok tt
  /\ replied (run_events w ev st)
     = [(reply_token ev, TextSendMessage ack_text)]
  /\ pushed (run_events w ev st)
     = [(user_id ev, ImageSendMessage url url)]
  /\ exists png d,
       files st1 !! path = Some png
       /\ cloudinary_upload w png = Ok d
       /\ d !! "secure_url" = Some url.
Proof.
  intros Hsub Hreply H1 H2 H3. apply triggered_iff in Hsub.
  assert (Hrun : handle_message w ev st
                 = (emit (EvPush (user_id ev) (ImageSendMessage url url)) st2,
                    Ok tt)).
  { rewrite (handle_message_triggered w ev st Hsub Hreply).
    now apply (deliver_succeeds w (user_id ev) _ st1 st2 path). }
  destruct (create_report_img_trace w (acked ev st)) as (t & Ht & HP).
  rewrite H1 in Ht; cbn [fst] in Ht.
  destruct (upload_report_run _ _ _ _ _ H2) as (_ & t2 & Ht2 & HP2).
  assert (Hev : run_events w ev st
                = [EvPrintCommand (py_strip (text ev));
                   EvReply (reply_token ev) (TextSendMessage ack_text)]
                  ++ (map quote_event symbols_info ++ t)
                  ++ [EvUpload path] ++ t2
                  ++ [EvPush (user_id ev) (ImageSendMessage url url)]).
  { unfold run_events. rewrite Hrun. apply new_events_app.
    unfold emit; cbn [fst trace].
    rewrite Ht2, Ht, trace_acked, <- !app_assoc. reflexivity. }
  split; [now rewrite Hrun|].
  rewrite Hev, !pushed_app, !replied_app.
  rewrite (pushed_silent t2 HP2), (pushed_silent t HP).
  rewrite (replied_silent t2 HP2), (replied_silent t HP).
  split; [reflexivity|]. split; [reflexivity|].
  destruct (upload_report_ok _ _ _ _ _ H2) as (png & d & ? & ? & ?).
  now exists png, d.
Qed.

Lemma report_delivered_witness :
  snd (handle_message world_ok (demo_event text_rate_today) state_after_a_run)
  = Ok tt
  /\ pushed (run_events world_ok (demo_event text_rate_today) state_after_a_run)
     = [("U4af4980629", ImageSendMessage demo_url demo_url)].
Proof.
  edestruct (report_delivered world_ok (demo_event text_rate_today)
               state_after_a_run)
    as (Hret & _ & Hp & _).
  - now apply py_in_spec.
  - reflexivity.
  - vm_compute; reflexivity.
  - vm_compute; reflexivity.
  - reflexivity.
  - split; [exact Hret|exact Hp].
Defined.

(** X: when Cloudinary answers without a 'secure_url', the lookup raises
    KeyError and the sender is pushed the failure text ending in
    'secure_url' (with its quotes), and no image. *)
Theorem missing_secure_url_reported (w : World) (ev : MessageEvent)
  (st st1 : state) (path : string) (png : bytes) (d : gmap string string) :
  is_substring keyword (text ev) ->
  line_reply w (reply_token ev) (TextSendMessage ack_text) = Ok tt ->
  create_report_img w (acked ev st) = (st1, Ok path) ->
  files st1 !! path = Some png ->
  cloudinary_upload w png = Ok d ->
  d !! "secure_url" = None ->
  pushed (run_events w ev st)
  = [(user_id ev, TextSendMessage "❌ 報表處理失敗: 'secure_url'")]
  /\ snd (handle_message w ev st)
     = line_push w (user_id ev)
         (TextSendMessage "❌ 報表處理失敗: 'secure_url'").
Proof.
  intros Hsub Hreply H1 Hfile Hup Hkey. apply triggered_iff in Hsub.
  pose proof (upload_report_no_url w path st1 png d Hfile Hup Hkey) as H2.
  assert (Hrun : handle_message w ev st
                 = report_failure w (user_id ev) (KeyError "secure_url")
                     (emit (EvUpload path) st1)).
  { rewrite (handle_message_triggered w ev st Hsub Hreply).
    now apply (deliver_upload_fails w (user_id ev) _ st1 _ path). }
  rewrite report_failure_run in Hrun.
  destruct (create_report_img_trace w (acked ev st)) as (t & Ht & HP).
  rewrite H1 in Ht; cbn [fst] in Ht.
  assert (Hev : run_events w ev st
                = [EvPrintCommand (py_strip (text ev));
                   EvReply (reply_token ev) (TextSendMessage ack_text)]
                  ++ (map quote_event symbols_info ++ t)
                  ++ [EvUpload path]
                  ++ [EvPrint (error_msg (KeyError "secure_url"));
                      EvPush (user_id ev)
                        (TextSendMessage (error_msg (KeyError "secure_url")))]).
  { unfold run_events. rewrite Hrun. apply new_events_app.
    unfold emit; cbn [fst trace].
    rewrite Ht, trace_acked, <- !app_assoc. reflexivity. }
  split; [|now rewrite Hrun].
  rewrite Hev, !pushed_app. now rewrite (pushed_silent t HP).
Qed.

Lemma missing_secure_url_reported_witness :
  pushed (run_events world_no_secure_url (demo_event text_rate_today) init_state)
  = [("U4af4980629", TextSendMessage "❌ 報表處理失敗: 'secure_url'")].
Proof.
  edestruct (missing_secure_url_reported world_no_secure_url
               (demo_event text_rate_today) init_state)
    as (Hp & _).
  - now apply py_in_spec.
  - reflexivity.
  - vm_compute; reflexivity.
  - vm_compute; reflexivity.
  - reflexivity.
  - vm_compute; reflexivity.
  - exact Hp.
Defined.

(** X: the handler raises only what the LINE API raised: the exception
    of the acknowledgement reply, or that of the push of a failure text.
    A failure of the quotes, the icons, matplotlib, the upload or the image
    push never leaves the handler. *)
Theorem handler_raises_only_from_line_api (w : World) (ev : MessageEvent)
  (st st' : state) (e : exn) :
  handle_message w ev st = (st', Raise e) ->
  line_reply w (reply_token ev) (TextSendMessage ack_text) = Raise e
  \/ exists e0,
       line_push w (user_id ev) (TextSendMessage (error_msg e0)) = Raise e.
Proof.
  intros Hrun.
  destruct (py_in keyword (py_strip (text ev))) eqn:Htrig.
  2:{ rewrite (handle_message_ignored w ev st Htrig) in Hrun. discriminate. }
  destruct (line_reply w (reply_token ev) (TextSendMessage ack_text))
    as [[]|e1] eqn:Hreply.
  2:{ rewrite (handle_message_reply_fails w ev st e1 Htrig Hreply) in Hrun.
      left. congruence. }
  rewrite (handle_message_triggered w ev st Htrig Hreply) in Hrun.
  destruct (deliver_outcome w (user_id ev) (acked ev st))
    as (st2 & _ & _ & [(url & _ & H) | [(e0 & H) | (url & e0 & _ & H)]]);
    rewrite H in Hrun; try discriminate;
    rewrite report_failure_run in Hrun; right; exists e0; congruence.
Qed.

Lemma handler_raises_only_from_line_api_witness :
  line_reply world_reply_fails "nHuyWiB7yP5Zw52FIkcQobQuGDXCTA"
    (TextSendMessage ack_text)
  = Raise (mk_exn "LineBotApiError" "Invalid reply token")
  \/ exists e0,
       line_push world_reply_fails "U4af4980629" (TextSendMessage (error_msg e0))
       = Raise (mk_exn "LineBotApiError" "Invalid reply token").
Proof.
  apply (handler_raises_only_from_line_api world_reply_fails
           (demo_event text_rate_today) init_state
           (acked (demo_event text_rate_today) init_state)).
  reflexivity.
Defined.

(** ** The webhook as a whole *)

Lemma callback_valid (w : World) (signature body : string) (st : state) :
  signature_valid w body signature = true ->
  callback w signature body st
  = match dispatch w (parse_events w body) st with
    | (st', Ok _) => (st', Ok "OK")
    | (st', Raise e) =>
        if String.eqb (exn_class e) "InvalidSignatureError"
        then (st', Raise BadRequest)
        else (st', Raise e)
    end.
Proof.
  intros Hsig. unfold callback, bind, try_except_class, handler_handle, raise, ret.
  rewrite Hsig.
  destruct (dispatch w (parse_events w body) st) as [st' [[]|e]]; [reflexivity|].
  now destruct (String.eqb (exn_class e) "InvalidSignatureError").
Qed.






(** X: the acknowledgement is outside the [try]: when the reply raises,
    the exception leaves the handler, the pipeline does not start, no
    failure text is pushed, the events that follow in the body are not
    handled, and the webhook is answered with an error status. *)
Theorem reply_failure_aborts_webhook (w : World) (signature body : string)
  (ev : MessageEvent) (events : list webhook_event) (st : state) (e : exn) :
  signature_valid w body signature = true ->
  parse_events w body = TextMessageEvent ev :: events ->
  is_substring keyword (text ev) ->
  line_reply w (reply_token ev) (TextSendMessage ack_text) = Raise e ->
  String.eqb (exn_class e) "InvalidSignatureError" = false ->
  callback w signature body st = (acked ev st, Raise e)
  /\ serve w signature body st
     = mk_state (trace st
                 ++ [EvPrintCommand (py_strip (text ev));
                     EvReply (reply_token ev) (TextSendMessage ack_text);
                     EvHttpResponse (http_status (Raise e))])
                (files st).
Proof.
  intros Hsig Hparse Hsub Hreply Hcls. apply triggered_iff in Hsub.
  assert (H : callback w signature body st = (acked ev st, Raise e)).
  { rewrite (callback_valid w signature body st Hsig), Hparse. simpl.
    unfold bind. rewrite (handle_message_reply_fails w ev st e Hsub Hreply).
    now rewrite Hcls. }
  split; [exact H|]. unfold serve. rewrite H. unfold emit.
  rewrite trace_acked. simpl. now rewrite <- app_assoc.
Qed.

Lemma reply_failure_aborts_webhook_witness :
  serve world_reply_fails "signature" "body" init_state
  = mk_state [EvPrintCommand text_rate_today;
              EvReply "nHuyWiB7yP5Zw52FIkcQobQuGDXCTA" (TextSendMessage ack_text);
              EvHttpResponse 500] ∅.
Proof.
  edestruct (reply_failure_aborts_webhook world_reply_fails "signature" "body"
               (demo_event text_rate_today)
               [TextMessageEvent (demo_event text_rate_today)] init_state)
    as [_ H].
  - reflexivity.
  - reflexivity.
  - now apply py_in_spec.
  - reflexivity.
  - reflexivity.
  - exact H.
Defined.

Lemma handle_message_ok (w : World) (ev : MessageEvent) (st : state) :
  (forall tok m, line_reply w tok m = Ok tt) ->
  (forall to m, line_push w to m = Ok tt) ->
  snd (handle_message w ev st) = Ok tt.
Proof.
  intros Hreply Hpush.
  destruct (py_in keyword (py_strip (text ev))) eqn:Htrig.
  2:{ now rewrite (handle_message_ignored w ev st Htrig). }
  rewrite (handle_message_triggered w ev st Htrig (Hreply _ _)).
  destruct (deliver_outcome w (user_id ev) (acked ev st))
    as (st2 & _ & _ & [(url & _ & ->) | [(e0 & ->) | (url & e0 & _ & ->)]]);
    [reflexivity| |]; rewrite report_failure_run; apply Hpush.
Qed.




Lemma handle_message_files (w : World) (ev : MessageEvent) (st : state) :
  files (fst (handle_message w ev st)) = files st
  \/ exists png,
       files (fst (handle_message w ev st)) = <[report_path := png]> (files st).
Proof.
  destruct (py_in keyword (py_strip (text ev))) eqn:Htrig.
  2:{ left. now rewrite (handle_message_ignored w ev st Htrig). }
  destruct (line_reply w (reply_token ev) (TextSendMessage ack_text))
    as [[]|e] eqn:Hreply.
  2:{ left. now rewrite (handle_message_reply_fails w ev st e Htrig Hreply). }
  rewrite (handle_message_triggered w ev st Htrig Hreply).
  destruct (deliver_outcome w (user_id ev) (acked ev st))
    as (st2 & Hf & _ & [(url & _ & ->) | [(e0 & ->) | (url & e0 & _ & ->)]]);
    try rewrite report_failure_run; exact Hf.
Qed.

Lemma dispatch_files (w : World) (events : list webhook_event) :
  forall st,
    files (fst (dispatch w events st)) = files st
    \/ exists png,
         files (fst (dispatch w events st)) = <[report_path := png]> (files st).
Proof.
  induction events as [|[ev|] events IH]; simpl; intros st;
    [now left| |apply IH].
  unfold bind. pose proof (handle_message_files w ev st) as H1.
  destruct (handle_message w ev st) as [st1 [[]|e]]; simpl in H1; [|exact H1].
  destruct (IH st1) as [H2 | [png2 H2]]; rewrite H2.
  - exact H1.
  - right. exists png2. destruct H1 as [-> | [png1 ->]]; [reflexivity|].
    apply insert_insert_eq.
Qed.

(** X: the only file a webhook request can write is "line_report.png":
    whatever happens, every other path of the file store holds afterwards
    what it held before. *)
Theorem webhook_writes_only_the_report (w : World) (signature body : string)
  (st : state) (path : string) :
  path <> "line_report.png" ->
  files (fst (callback w signature body st)) !! path = files st !! path.
Proof.
  intros Hpath.
  assert (H : files (fst (callback w signature body st)) = files st
              \/ exists png, files (fst (callback w signature body st))
                             = <[report_path := png]> (files st)).
  { destruct (signature_valid w body signature) eqn:Hsig.
    - rewrite (callback_valid w signature body st Hsig).
      pose proof (dispatch_files w (parse_events w body) st) as Hd.
      destruct (dispatch w (parse_events w body) st) as [st' [[]|e]];
        [exact Hd|].
      now destruct (String.eqb (exn_class e) "InvalidSignatureError").
    - left. unfold callback, bind, try_except_class, handler_handle, raise.
      now rewrite Hsig. }
  destruct H as [-> | [png ->]]; [reflexivity|].
  apply lookup_insert_ne. unfold report_path. congruence.
Qed.

Lemma webhook_writes_only_the_report_witness :
  files (fst (callback world_ok "signature" "body"
                (mk_state [] {[ "notes.txt" := [Byte.x68; Byte.x69] ]})))
    !! "notes.txt"
  = Some [Byte.x68; Byte.x69].
Proof.
  rewrite (webhook_writes_only_the_report world_ok "signature" "body"
             (mk_state [] {[ "notes.txt" := [Byte.x68; Byte.x69] ]})
             "notes.txt"); [reflexivity|discriminate].
Defined.

(** ** Messages per run *)

(** The messages of an acknowledged run. *)
Lemma acknowledged_run_messages (w : World) (ev : MessageEvent) (st : state) :
  py_in keyword (py_strip (text ev)) = true ->
  line_reply w (reply_token ev) (TextSendMessage ack_text) = Ok tt ->
  exists t,
    trace (fst (handle_message w ev st)) = trace st ++ t
    /\ replied t = [(reply_token ev, TextSendMessage ack_text)]
    /\ ((exists url,
           pushed t = [(user_id ev, ImageSendMessage url url)]
           /\ snd (handle_message w ev st) = Ok tt)
        \/ (exists e,
              pushed t = [(user_id ev, TextSendMessage (error_msg e))]
              /\ snd (handle_message w ev st)
                 = line_push w (user_id ev) (TextSendMessage (error_msg e)))
        \/ (exists url e,
              line_push w (user_id ev) (ImageSendMessage url url) = Raise e
              /\ pushed t = [(user_id ev, ImageSendMessage url url);
                             (user_id ev, TextSendMessage (error_msg e))])).
Proof.
  intros Htrig Hreply.
  rewrite (handle_message_triggered w ev st Htrig Hreply).
  destruct (deliver_outcome w (user_id ev) (acked ev st))
    as (st2 & _ & (t & Ht & HP)
        & [(url & _ & ->) | [(e0 & ->) | (url & e0 & Hpush & ->)]]);
    try rewrite report_failure_run; unfold emit; cbn [fst snd trace];
    rewrite Ht, trace_acked, <- !app_assoc; eexists;
    (split; [reflexivity|]);
    rewrite !replied_app, !pushed_app, (replied_silent t HP), (pushed_silent t HP);
    (split; [reflexivity|]).
  - left. now exists url.
  - right; left. now exists e0.
  - right; right. now exists url, e0.
Qed.

(** X: a run that was acknowledged always pushes to the sender: the
    image alone, a failure text alone, or, when the image push itself
    raised, the image and then the failure text. *)
Theorem acknowledged_run_always_pushes (w : World) (ev : MessageEvent)
  (st : state) :
  is_substring keyword (text ev) ->
  line_reply w (reply_token ev) (TextSendMessage ack_text) = Ok tt ->
  (exists url,
     pushed (run_events w ev st) = [(user_id ev, ImageSendMessage url url)])
  \/ (exists e,
        pushed (run_events w ev st)
        = [(user_id ev, TextSendMessage (error_msg e))])
  \/ (exists url e,
        line_push w (user_id ev) (ImageSendMessage url url) = Raise e
        /\ pushed (run_events w ev st)
           = [(user_id ev, ImageSendMessage url url);
              (user_id ev, TextSendMessage (error_msg e))]).
Proof.
  intros Hsub Hreply. apply triggered_iff in Hsub.
  destruct (acknowledged_run_messages w ev st Hsub Hreply)
    as (t & Ht & _ & H).
  unfold run_events. rewrite (new_events_app _ _ t Ht).
  destruct H as [(url & H & _) | [(e & H & _) | (url & e & Hp & H)]].
  - left. now exists url.
  - right; left. now exists e.
  - right; right. now exists url, e.
Qed.

Lemma acknowledged_run_always_pushes_witness :
  (exists url,
     pushed (run_events world_quotes_down (demo_event text_rate_today) init_state)
     = [("U4af4980629", ImageSendMessage url url)])
  \/ (exists e,
        pushed (run_events world_quotes_down (demo_event text_rate_today) init_state)
        = [("U4af4980629", TextSendMessage (error_msg e))])
  \/ (exists url e,
        line_push world_quotes_down "U4af4980629" (ImageSendMessage url url)
        = Raise e
        /\ pushed (run_events world_quotes_down (demo_event text_rate_today)
                     init_state)
           = [("U4af4980629", ImageSendMessage url url);
              ("U4af4980629", TextSendMessage (error_msg e))]).
Proof.
  apply (acknowledged_run_always_pushes world_quotes_down
           (demo_event text_rate_today) init_state).
  - now apply py_in_spec.
  - reflexivity.
Defined.

Lemma dispatch_messages (w : World) (events : list webhook_event) :
  (forall tok m, line_reply w tok m = Ok tt) ->
  (forall to m, line_push w to m = Ok tt) ->
  forall st, exists t,
    trace (fst (dispatch w events st)) = trace st ++ t
    /\ replied t
       = map (fun ev => (reply_token ev, TextSendMessage ack_text)) (runs events)
    /\ map fst (pushed t) = map user_id (runs events).
Proof.
  intros Hreply Hpush.
  induction events as [|[ev|] events IH]; simpl; intros st.
  - exists []. now rewrite app_nil_r.
  - unfold bind.
    pose proof (handle_message_ok w ev st Hreply Hpush) as Hok.
    destruct (py_in keyword (py_strip (text ev))) eqn:Htrig.
    + destruct (acknowledged_run_messages w ev st Htrig (Hreply _ _))
        as (t1 & Ht1 & Hr1 & Hp1).
      assert (Hp : map fst (pushed t1) = [user_id ev]).
      { destruct Hp1 as [(url & -> & _) | [(e & -> & _) | (url & e & H & _)]];
          [reflexivity|reflexivity|]. rewrite Hpush in H. discriminate. }
      destruct (handle_message w ev st) as [st1 r]. simpl in Hok, Ht1. subst r.
      destruct (IH st1) as (t2 & Ht2 & Hr2 & Hp2).
      exists (t1 ++ t2). rewrite Ht2, Ht1, <- app_assoc.
      split; [reflexivity|].
      rewrite replied_app, pushed_app, map_app, Hr1, Hr2, Hp, Hp2.
      now split.
    + rewrite (handle_message_ignored w ev st Htrig).
      destruct (IH (emit (EvPrintCommand (py_strip (text ev))) st))
        as (t2 & Ht2 & Hr2 & Hp2).
      exists (EvPrintCommand (py_strip (text ev)) :: t2).
      rewrite Ht2. unfold emit; cbn [trace]. rewrite <- app_assoc.
      split; [reflexivity|]. now split.
  - apply IH.
Qed.

(** X: while the LINE API accepts the replies and the pushes, a validly
    signed body gets, for each of its texts that contain the keyword and in
    their order, one acknowledgement on that text's reply token and one push
    to that text's sender; the other events get nothing. *)
Theorem one_ack_and_one_push_per_command (w : World)
  (signature body : string) (st : state) :
  signature_valid w body signature = true ->
  (forall tok m, line_reply w tok m = Ok tt) ->
  (forall to m, line_push w to m = Ok tt) ->
  replied (new_events st (fst (callback w signature body st)))
  = map (fun ev => (reply_token ev, TextSendMessage ack_text))
        (runs (parse_events w body))
  /\ map fst (pushed (new_events st (fst (callback w signature body st))))
     = map user_id (runs (parse_events w body)).
Proof.
  intros Hsig Hreply Hpush.
  destruct (dispatch_messages w (parse_events w body) Hreply Hpush st)
    as (t & Ht & Hr & Hp).
  assert (Hst : fst (callback w signature body st)
                = fst (dispatch w (parse_events w body) st)).
  { rewrite (callback_valid w signature body st Hsig).
    destruct (dispatch w (parse_events w body) st) as [st' [[]|e]];
      [reflexivity|].
    now destruct (String.eqb (exn_class e) "InvalidSignatureError"). }
  rewrite Hst, (new_events_app _ _ t Ht). now split.
Qed.

Lemma one_ack_and_one_push_per_command_witness :
  replied (new_events init_state
             (fst (callback world_upload_fails "signature" "body" init_state)))
  = [("nHuyWiB7yP5Zw52FIkcQobQuGDXCTA", TextSendMessage ack_text)]
  /\ map fst (pushed (new_events init_state
                        (fst (callback world_upload_fails "signature" "body"
                                init_state))))
     = ["U4af4980629"].
Proof.
  apply (one_ack_and_one_push_per_command world_upload_fails "signature" "body"
           init_state); reflexivity.
Defined.

(** ** The shape of the formatted rates *)

Lemma of_lu_digit (r : N) (d : Decimal.uint) :
  (r < 10)%N ->
  DecimalPos.Unsigned.of_lu (lu_digit r d)
  = (r + 10 * DecimalPos.Unsigned.of_lu d)%N.
Proof.
  intros Hr.
  assert (H : (r = 0 \/ r = 1 \/ r = 2 \/ r = 3 \/ r = 4 \/ r = 5 \/ r = 6
               \/ r = 7 \/ r = 8 \/ r = 9)%N) by lia.
  repeat (destruct H as [-> | H]; [reflexivity|]). now subst r.
Qed.

Lemma nb_digits_lu_digit r d :
  Decimal.nb_digits (lu_digit r d) = S (Decimal.nb_digits d).
Proof.
  unfold lu_digit. destruct r as [|p]; [reflexivity|].
  do 4 (try (destruct p as [p|p|]; try reflexivity)).
Qed.

Lemma of_lu_digits (k : nat) : forall n,
  (n < 10 ^ N.of_nat k)%N -> DecimalPos.Unsigned.of_lu (lu_digits k n) = n.
Proof.
  induction k as [|k IH]; intros n Hn.
  - simpl in *. lia.
  - cbn [lu_digits]. rewrite of_lu_digit by (apply N.mod_lt; lia).
    rewrite IH.
    + pose proof (N.div_mod n 10). lia.
    + rewrite Nat2N.inj_succ, N.pow_succ_r' in Hn.
      apply N.Div0.div_lt_upper_bound. lia.
Qed.

Lemma nb_digits_lu_digits (k : nat) n : Decimal.nb_digits (lu_digits k n) = k.
Proof.
  revert n. induction k as [|k IH]; intros n; [reflexivity|].
  cbn [lu_digits]. now rewrite nb_digits_lu_digit, IH.
Qed.

Lemma length_string_of_uint (d : Decimal.uint) :
  String.length (NilEmpty.string_of_uint d) = Decimal.nb_digits d.
Proof. induction d; simpl; auto with arith. Qed.

(** A number below [10^k] is written with at most [k] digits. *)
Lemma N_to_string_short (k : nat) (n : N) :
  (n < 10 ^ N.of_nat (S k))%N -> String.length (N_to_string n) <= S k.
Proof.
  intros Hn. unfold N_to_string.
  set (d := Decimal.rev (lu_digits (S k) n)).
  assert (Hd : N.of_uint d = n).
  { unfold d, N.of_uint. rewrite DecimalPos.Unsigned.of_lu_rev.
    now apply of_lu_digits. }
  assert (Hnil : d <> Decimal.Nil).
  { intros H. apply (f_equal Decimal.nb_digits) in H.
    unfold d in H. rewrite nb_digits_rev, nb_digits_lu_digits in H.
    discriminate. }
  rewrite <- Hd, DecimalN.Unsigned.to_of.
  pose proof (nb_digits_unorm d Hnil) as Hle.
  unfold d in Hle at 2. rewrite nb_digits_rev, nb_digits_lu_digits in Hle.
  assert (Hu : Decimal.unorm d <> Decimal.Nil).
  { unfold Decimal.unorm. now destruct (Decimal.nzhead d). }
  destruct (Decimal.unorm d) eqn:Hun; try contradiction;
    unfold NilZero.string_of_uint; rewrite length_string_of_uint; exact Hle.
Qed.

Lemma length_append (s1 s2 : string) :
  String.length (s1 +:+ s2) = String.length s1 + String.length s2.
Proof.
  induction s1 as [|c s1 IH]; [reflexivity|].
  change (S (String.length (s1 +:+ s2))
          = S (String.length s1 + String.length s2)).
  now rewrite IH.
Qed.

Lemma length_zeros k : String.length (zeros k) = k.
Proof. induction k; simpl; congruence. Qed.

Lemma length_pad_left (k : nat) (n : N) :
  (n < 10 ^ N.of_nat (S k))%N -> String.length (pad_left (S k) n) = S k.
Proof.
  intros Hn. unfold pad_left. rewrite length_append, length_zeros.
  pose proof (N_to_string_short k n Hn). lia.
Qed.

Lemma format_f_fixed (d : nat) (x : float) :
  is_finite x = true ->
  exists (s : bool) (q r : N),
    (r < 10 ^ N.of_nat (S d))%N
    /\ format_f (S d) x
       = sign_str s +:+ N_to_string q +:+ "." +:+ pad_left (S d) r
    /\ String.length (pad_left (S d) r) = S d.
Proof.
  unfold is_finite, format_f. intros Hfin.
  assert (Hpos : (10 ^ N.of_nat (S d) <> 0)%N) by (apply N.pow_nonzero; lia).
  destruct (Prim2SF x) as [s|s| |s m e]; try discriminate.
  - exists s, (0 / 10 ^ N.of_nat (S d))%N, (0 mod 10 ^ N.of_nat (S d))%N.
    pose proof (N.mod_lt 0 _ Hpos) as Hlt.
    split; [exact Hlt|]. split; [reflexivity|]. now apply length_pad_left.
  - exists s, (scaled (S d) m e / 10 ^ N.of_nat (S d))%N,
      (scaled (S d) m e mod 10 ^ N.of_nat (S d))%N.
    pose proof (N.mod_lt (scaled (S d) m e) _ Hpos) as Hlt.
    split; [exact Hlt|]. split; [reflexivity|]. now apply length_pad_left.
Qed.

(** X: for a rate that is a number (neither nan nor infinite, and whose
    product by 365 does not overflow), Daily is an optional minus sign, an
    integer part, a point, exactly four digits and "%", and APR the same
    with exactly two digits. *)
Theorem rate_row_fixed_decimals (i : info) (rate : float) :
  is_finite rate = true ->
  is_finite (PrimFloat.mul rate 365%float) = true ->
  exists (s1 s2 : bool) (q1 r1 q2 r2 : N),
    (r1 < 10 ^ 4)%N /\ (r2 < 10 ^ 2)%N
    /\ Daily (rate_row i rate)
       = (sign_str s1 +:+ N_to_string q1 +:+ "." +:+ pad_left 4 r1) +:+ "%"
    /\ String.length (pad_left 4 r1) = 4
    /\ APR (rate_row i rate)
       = (sign_str s2 +:+ N_to_string q2 +:+ "." +:+ pad_left 2 r2) +:+ "%"
    /\ String.length (pad_left 2 r2) = 2.
Proof.
  intros H1 H2.
  destruct (format_f_fixed 3 rate H1) as (s1 & q1 & r1 & Hr1 & Hf1 & Hl1).
  destruct (format_f_fixed 1 _ H2) as (s2 & q2 & r2 & Hr2 & Hf2 & Hl2).
  exists s1, s2, q1, r1, q2, r2. unfold rate_row; simpl.
  rewrite Hf1, Hf2. repeat split; assumption.
Qed.

Lemma rate_row_fixed_decimals_witness :
  exists (s1 s2 : bool) (q1 r1 q2 r2 : N),
    (r1 < 10 ^ 4)%N /\ (r2 < 10 ^ 2)%N
    /\ Daily (rate_row (mk_info "BTC" "btc.png") 0.01%float)
       = (sign_str s1 +:+ N_to_string q1 +:+ "." +:+ pad_left 4 r1) +:+ "%"
    /\ String.length (pad_left 4 r1) = 4
    /\ APR (rate_row (mk_info "BTC" "btc.png") 0.01%float)
       = (sign_str s2 +:+ N_to_string q2 +:+ "." +:+ pad_left 2 r2) +:+ "%"
    /\ String.length (pad_left 2 r2) = 2.
Proof.
  apply (rate_row_fixed_decimals (mk_info "BTC" "btc.png") 0.01%float);
    reflexivity.
Defined.
